(** * ikago: the server side of the packet-capture relay (pcap/server.go)

    A shallow embedding of [Server.handshake], [Server.handleListen],
    [Server.handleUpstream] and [Server.distPort], with the shared
    tables of the server as an explicit state and the frames written
    and lines printed by a handler as its output. *)

From Stdlib Require Import Ascii.
From stdpp Require Import gmap strings list fin_maps pretty.

Local Open Scope Z_scope.

(** ** Fixed-width integers

    Go's uint8, uint16 and uint32 are integers of [Z] kept in range by
    reducing after every operation that can leave it. *)

Definition uint8 (z : Z) : Z := z mod 256.
Definition uint16 (z : Z) : Z := z mod 65536.
Definition uint32 (z : Z) : Z := z mod 4294967296.

(** A byte slice; every element is meant to lie in [0, 256).  The nil
    slice and the empty slice are both [[]]. *)
Abbreviation bytes := (list Z).

(** net.IP and net.HardwareAddr are byte slices. *)
Abbreviation IP := (list Z).
Abbreviation HardwareAddr := (list Z).

Definition is_nil (b : bytes) : bool :=
  match b with [] => true | _ => false end.

(** ** gopacket layer types

    gopacket.LayerType is an int64 whose values are handed out by a
    registry; the server only compares them.  [LayerTypeZero] is the
    zero value of the Go type (the value of a declared and never
    assigned variable), which the registry reserves and which is none
    of the layer types of package layers.  [LayerTypeOther] stands for
    the registered types the server has no case for. *)

Inductive LayerType :=
| LayerTypeZero
| LayerTypeEthernet
| LayerTypeLoopback
| LayerTypeIPv4
| LayerTypeIPv6
| LayerTypeTCP
| LayerTypeUDP
| LayerTypeOther (n : positive).

#[global] Instance LayerType_eq_dec : EqDecision LayerType.
Proof. solve_decision. Defined.

Definition LayerType_to_sum (t : LayerType) : nat + positive :=
  match t with
  | LayerTypeZero => inl 0%nat
  | LayerTypeEthernet => inl 1%nat
  | LayerTypeLoopback => inl 2%nat
  | LayerTypeIPv4 => inl 3%nat
  | LayerTypeIPv6 => inl 4%nat
  | LayerTypeTCP => inl 5%nat
  | LayerTypeUDP => inl 6%nat
  | LayerTypeOther n => inr n
  end.

Definition LayerType_of_sum (s : nat + positive) : LayerType :=
  match s with
  | inl 0%nat => LayerTypeZero
  | inl 1%nat => LayerTypeEthernet
  | inl 2%nat => LayerTypeLoopback
  | inl 3%nat => LayerTypeIPv4
  | inl 4%nat => LayerTypeIPv6
  | inl 5%nat => LayerTypeTCP
  | inl _ => LayerTypeUDP
  | inr n => LayerTypeOther n
  end.

#[global] Instance LayerType_countable : Countable LayerType.
Proof.
  apply (inj_countable' LayerType_to_sum LayerType_of_sum).
  intros []; reflexivity.
Defined.

(** ** Errors

    Go error values: [errors.New], the wrapping [fmt.Errorf("ctx: %w", e)],
    the message [fmt.Errorf("type %s not support", t)], and the errors
    that come back from the capture driver and the layer codec. *)

Inductive error :=
| errors_New (msg : string)
| Errorf (ctx : string) (e : error)
| TypeNotSupport (t : LayerType)
| ExternalError (code : Z).

(** A Go [(value, error)] result. *)
Inductive result (A : Type) :=
| Ok (a : A)
| Err (e : error).
Arguments Ok {A} a.
Arguments Err {A} e.

(** ** Layers (package layers of gopacket)

    The fields of the layer structs that a header built by the server
    can carry; the byte slices of the base layer and the options are
    not consulted by the server. *)

Record TCP := {
  tcp_SrcPort : Z;
  tcp_DstPort : Z;
  tcp_Seq : Z;
  tcp_Ack : Z;
  tcp_DataOffset : Z;
  tcp_FIN : bool;
  tcp_SYN : bool;
  tcp_RST : bool;
  tcp_PSH : bool;
  tcp_ACK : bool;
  tcp_Window : Z
}.

Record UDP := {
  udp_SrcPort : Z;
  udp_DstPort : Z
}.

Record IPv4 := {
  ip4_Id : Z;
  ip4_Flags : Z;
  ip4_TTL : Z;
  ip4_Protocol : Z;
  ip4_SrcIP : IP;
  ip4_DstIP : IP
}.

Record IPv6 := {
  ip6_NextHeader : Z;
  ip6_HopLimit : Z;
  ip6_SrcIP : IP;
  ip6_DstIP : IP
}.

Record Ethernet := {
  eth_SrcMAC : HardwareAddr;
  eth_DstMAC : HardwareAddr;
  eth_EthernetType : Z
}.

Record Loopback := {
  lo_Family : Z
}.

(** gopacket.TransportLayer, gopacket.NetworkLayer and the link layer
    (a gopacket.Layer) are interface values; the dynamic type is the
    constructor.  [OtherTransportLayer] and [OtherNetworkLayer] are
    layers of a type the server has no case for. *)

Inductive TransportLayer :=
| TCPLayer (tcp : TCP)
| UDPLayer (udp : UDP)
| OtherTransportLayer (t : LayerType).

Inductive NetworkLayer :=
| IPv4Layer (ipv4 : IPv4)
| IPv6Layer (ipv6 : IPv6)
| OtherNetworkLayer (t : LayerType).

Inductive LinkLayer :=
| LoopbackLayer (lo : Loopback)
| EthernetLayer (eth : Ethernet).

(** [tcpLayer.SrcPort = ...] and its siblings: assignment to a field
    of the layer an indicator points to. *)

Definition tcp_set_SrcPort (tcp : TCP) (port : Z) : TCP :=
  {| tcp_SrcPort := port; tcp_DstPort := tcp_DstPort tcp;
     tcp_Seq := tcp_Seq tcp; tcp_Ack := tcp_Ack tcp;
     tcp_DataOffset := tcp_DataOffset tcp;
     tcp_FIN := tcp_FIN tcp; tcp_SYN := tcp_SYN tcp; tcp_RST := tcp_RST tcp;
     tcp_PSH := tcp_PSH tcp; tcp_ACK := tcp_ACK tcp;
     tcp_Window := tcp_Window tcp |}.

Definition udp_set_SrcPort (udp : UDP) (port : Z) : UDP :=
  {| udp_SrcPort := port; udp_DstPort := udp_DstPort udp |}.

Definition ip4_set_SrcIP (ipv4 : IPv4) (ip : IP) : IPv4 :=
  {| ip4_Id := ip4_Id ipv4; ip4_Flags := ip4_Flags ipv4;
     ip4_TTL := ip4_TTL ipv4; ip4_Protocol := ip4_Protocol ipv4;
     ip4_SrcIP := ip; ip4_DstIP := ip4_DstIP ipv4 |}.

Definition ip6_set_SrcIP (ipv6 : IPv6) (ip : IP) : IPv6 :=
  {| ip6_NextHeader := ip6_NextHeader ipv6; ip6_HopLimit := ip6_HopLimit ipv6;
     ip6_SrcIP := ip; ip6_DstIP := ip6_DstIP ipv6 |}.

(** ** The data of the server *)

(** Modelled from the spec: the Device type is not in server.go.  "A
    capture endpoint with name, friendly name, hardware address, an
    ordered list of bound IP addresses, and an is_loopback flag."  The
    methods IPAddr, IPv4Addr and IPv6Addr are taken from the
    environment below. *)
Record Device := {
  dev_Name : string;
  dev_FriendlyName : string;
  dev_IPAddrs : list IP;
  dev_HardwareAddr : HardwareAddr;
  dev_IsLoop : bool
}.

(** Modelled from the spec: the packetIndicator type is not in
    server.go.  These are the fields the server reads: plain values
    copied out of the frame when it was parsed, next to the network and
    transport layer objects themselves.  A nil ApplicationLayer is
    [None]; otherwise the option holds its LayerContents. *)
Record packetIndicator := {
  ind_NetworkLayer : NetworkLayer;
  ind_NetworkLayerType : LayerType;
  ind_SrcIP : IP;
  ind_DstIP : IP;
  ind_Id : Z;
  ind_TTL : Z;
  ind_TransportLayer : TransportLayer;
  ind_TransportLayerType : LayerType;
  ind_SrcPort : Z;
  ind_DstPort : Z;
  ind_Seq : Z;
  ind_Ack : Z;
  ind_SYN : bool;
  ind_ACK : bool;
  ind_ApplicationLayer : option bytes
}.

Definition ind_set_layers (indicator : packetIndicator)
    (networkLayer : NetworkLayer) (transportLayer : TransportLayer) : packetIndicator :=
  {| ind_NetworkLayer := networkLayer;
     ind_NetworkLayerType := ind_NetworkLayerType indicator;
     ind_SrcIP := ind_SrcIP indicator; ind_DstIP := ind_DstIP indicator;
     ind_Id := ind_Id indicator; ind_TTL := ind_TTL indicator;
     ind_TransportLayer := transportLayer;
     ind_TransportLayerType := ind_TransportLayerType indicator;
     ind_SrcPort := ind_SrcPort indicator; ind_DstPort := ind_DstPort indicator;
     ind_Seq := ind_Seq indicator; ind_Ack := ind_Ack indicator;
     ind_SYN := ind_SYN indicator; ind_ACK := ind_ACK indicator;
     ind_ApplicationLayer := ind_ApplicationLayer indicator |}.

(** Modelled from the spec: the quintuple type is not in server.go.
    "(src_ip, src_port, dst_ip, dst_port, protocol) where protocol is
    the transport-layer kind", the addresses in string form. *)
Record quintuple := {
  q_SrcIP : string;
  q_SrcPort : Z;
  q_DstIP : string;
  q_DstPort : Z;
  q_Protocol : LayerType
}.

#[global] Instance quintuple_eq_dec : EqDecision quintuple.
Proof. solve_decision. Defined.

#[global] Instance quintuple_countable : Countable quintuple.
Proof.
  apply (inj_countable'
    (fun q => (q_SrcIP q, q_SrcPort q, q_DstIP q, q_DstPort q, q_Protocol q))
    (fun t => match t with
              | (a, b, c, d, e) =>
                  {| q_SrcIP := a; q_SrcPort := b; q_DstIP := c;
                     q_DstPort := d; q_Protocol := e |}
              end)).
  intros []; reflexivity.
Defined.

(** A capture handle (a pointer to a pcap.Handle), known by its identity. *)
Definition Handle := nat.

(** Modelled from the spec: the encappedPacketSrc type is not in
    server.go.  "(carrier_src_ip, carrier_src_port, inner_src_ip,
    inner_src_port, handle)". *)
Record encappedPacketSrc := {
  ps_SrcIP : string;
  ps_SrcPort : Z;
  ps_EncappedSrcIP : string;
  ps_EncappedSrcPort : Z;
  ps_Handle : Handle
}.

(** type Server struct *)
Record Server := {
  ListenPort : Z;
  ListenDevs : list Device;
  UpDev : Device;
  GatewayDev : Device;
  listenHandles : list Handle;
  upHandle : Handle;
  seqs : gmap string Z;
  acks : gmap string Z;
  id : Z;
  port : Z;
  portDist : gmap quintuple Z;
  nat : gmap quintuple encappedPacketSrc
}.

Definition set_seqs (p : Server) (m : gmap string Z) : Server :=
  {| ListenPort := ListenPort p; ListenDevs := ListenDevs p; UpDev := UpDev p;
     GatewayDev := GatewayDev p; listenHandles := listenHandles p;
     upHandle := upHandle p; seqs := m; acks := acks p; id := id p;
     port := port p; portDist := portDist p; nat := nat p |}.

Definition set_acks (p : Server) (m : gmap string Z) : Server :=
  {| ListenPort := ListenPort p; ListenDevs := ListenDevs p; UpDev := UpDev p;
     GatewayDev := GatewayDev p; listenHandles := listenHandles p;
     upHandle := upHandle p; seqs := seqs p; acks := m; id := id p;
     port := port p; portDist := portDist p; nat := nat p |}.

Definition set_id (p : Server) (n : Z) : Server :=
  {| ListenPort := ListenPort p; ListenDevs := ListenDevs p; UpDev := UpDev p;
     GatewayDev := GatewayDev p; listenHandles := listenHandles p;
     upHandle := upHandle p; seqs := seqs p; acks := acks p; id := n;
     port := port p; portDist := portDist p; nat := nat p |}.

Definition set_port (p : Server) (n : Z) : Server :=
  {| ListenPort := ListenPort p; ListenDevs := ListenDevs p; UpDev := UpDev p;
     GatewayDev := GatewayDev p; listenHandles := listenHandles p;
     upHandle := upHandle p; seqs := seqs p; acks := acks p; id := id p;
     port := n; portDist := portDist p; nat := nat p |}.

Definition set_nat (p : Server) (m : gmap quintuple encappedPacketSrc) : Server :=
  {| ListenPort := ListenPort p; ListenDevs := ListenDevs p; UpDev := UpDev p;
     GatewayDev := GatewayDev p; listenHandles := listenHandles p;
     upHandle := upHandle p; seqs := seqs p; acks := acks p; id := id p;
     port := port p; portDist := portDist p; nat := m |}.

(** Reading a Go map: the zero value when the key is absent. *)
Definition mapget (m : gmap string Z) (k : string) : Z := default 0 (m !! k).

(** ** What a handler does to the outside

    In the order of the calls: a frame handed to
    [handle.WritePacketData], an error printed by
    [fmt.Println(fmt.Errorf(...))], one of the three [fmt.Printf]
    lines, or the run-time panic of a failed type assertion. *)

Inductive Output :=
| WritePacketData (handle : Handle) (data : bytes)
| Println (e : error)
| Printf_Connect (ip : IP) (port : Z)
| Printf_RedirectInbound (t : LayerType) (src dst : string) (length : Z)
| Printf_RedirectOutbound (t : LayerType) (src dst : string) (length : Z)
| Panic.

Definition is_write (o : Output) : bool :=
  match o with WritePacketData _ _ => true | _ => false end.


(** ** The environment of server.go

    server.go calls the layer codec of the package (layers.go), the
    methods of Device and of the packet indicator, Go's package net and
    the capture driver.  None of them is part of server.go: the
    handlers below are defined, and their theorems proved, for every
    environment.  [Handle_WritePacketData] is the answer of the driver
    to a write ([None] for a nil error). *)

Class Externals := {
  Packet : Type;
  parsePacket : Packet -> result packetIndicator;
  parseEncappedPacket : bytes -> result packetIndicator;
  Metadata_Length : Packet -> Z;
  SrcAddr : packetIndicator -> string;
  DstAddr : packetIndicator -> string;
  Contents : packetIndicator -> bytes;
  Payload : packetIndicator -> bytes;
  createTCPLayerSYNACK : Z -> Z -> Z -> Z -> TCP;
  createTransportLayerTCP : Z -> Z -> Z -> Z -> TCP;
  createNetworkLayerIPv4 : IP -> IP -> Z -> Z -> TransportLayer -> result IPv4;
  createNetworkLayerIPv6 : IP -> IP -> TransportLayer -> result IPv6;
  createLinkLayerLoopback : Loopback;
  createLinkLayerEthernet :
    HardwareAddr -> HardwareAddr -> NetworkLayer -> result Ethernet;
  serialize :
    LinkLayer -> NetworkLayer -> TransportLayer -> bytes -> result bytes;
  IPAddr_IP : Device -> IP;
  IPv4Addr_IP : Device -> IP;
  IPv6Addr_IP : Device -> IP;
  IP_String : IP -> string;
  IP_To4 : IP -> IP;
  ParseIP : string -> IP;
  Handle_WritePacketData : Handle -> bytes -> option error
}.

Definition result_map {A B : Type} (f : A -> B) (r : result A) : result B :=
  match r with
  | Ok a => Ok (f a)
  | Err e => Err e
  end.

(** [fmt.Sprintf("%s:%d", ip, port)] *)
Definition Sprintf_addr (ip : string) (port : Z) : string :=
  ip +:+ ":" +:+ pretty port.

(** The outcome of a type assertion on a layer followed by an
    assignment to one of its fields. *)
Inductive asserted (A : Type) :=
| Asserted (a : A)
| Unsupported (t : LayerType)
| AssertionFailed.
Arguments Asserted {A} a.
Arguments Unsupported {A} t.
Arguments AssertionFailed {A}.

Section Handlers.

Context `{Externals}.

(** func (p *Server) distPort() uint16 *)
Definition distPort (p : Server) : Z :=
  uint16 (49152 + port p mod 16384).

(** The part of [Open] that runs before any frame is handled: the four
    tables are made empty and the IPv4 id is set to zero (the port
    cursor is left as it is; Go starts it at zero). *)
Definition Open_init (p : Server) : Server :=
  {| ListenPort := ListenPort p; ListenDevs := ListenDevs p; UpDev := UpDev p;
     GatewayDev := GatewayDev p; listenHandles := listenHandles p;
     upHandle := upHandle p; seqs := ∅; acks := ∅; id := 0;
     port := port p; portDist := ∅; nat := ∅ |}.

(** "Decide Loopback or Ethernet", as handshake and handleListen do. *)
Definition decideLinkLayerType (p : Server) : LayerType :=
  if dev_IsLoop (UpDev p) then LayerTypeLoopback else LayerTypeEthernet.

(** "Create new link layer": the switch on newLinkLayerType that the
    three functions share, with the error of its default case. *)
Definition createNewLinkLayer (p : Server) (newLinkLayerType : LayerType)
    (newNetworkLayer : NetworkLayer) : result LinkLayer :=
  match newLinkLayerType with
  | LayerTypeLoopback => Ok (LoopbackLayer createLinkLayerLoopback)
  | LayerTypeEthernet =>
      result_map EthernetLayer
        (createLinkLayerEthernet (dev_HardwareAddr (UpDev p))
           (dev_HardwareAddr (GatewayDev p)) newNetworkLayer)
  | t => Err (Errorf "create link layer" (TypeNotSupport t))
  end.

(** "Create new network layer" of handshake and of handleUpstream: the
    switch on newNetworkLayerType around the two builders, for the
    carrier segment [newTransportLayer]. *)
Definition createCarrierNetworkLayer (newNetworkLayerType : LayerType)
    (srcIP dstIP : IP) (ipId ttl : Z) (newTransportLayer : TCP) : result NetworkLayer :=
  match newNetworkLayerType with
  | LayerTypeIPv4 =>
      result_map IPv4Layer
        (createNetworkLayerIPv4 srcIP dstIP ipId ttl (TCPLayer newTransportLayer))
  | LayerTypeIPv6 =>
      result_map IPv6Layer
        (createNetworkLayerIPv6 srcIP dstIP (TCPLayer newTransportLayer))
  | t => Err (Errorf "create network layer" (TypeNotSupport t))
  end.

(** func (p *Server) handshake(indicator *packetIndicator) error

    The state is returned with the error: the two counters are written
    before anything can fail. *)
Definition handshake (p : Server) (indicator : packetIndicator)
    : Server * list Output * option error :=
  (* Initial TCP Seq *)
  let srcAddr := SrcAddr indicator in
  let p := set_seqs p (<[srcAddr := 0]> (seqs p)) in
  (* TCK Ack *)
  let p := set_acks p (<[srcAddr := uint32 (ind_Seq indicator + 1)]> (acks p)) in
  (* Create transport layer *)
  let newTransportLayer :=
    createTCPLayerSYNACK (ListenPort p) (ind_SrcPort indicator)
      (mapget (seqs p) srcAddr) (mapget (acks p) srcAddr) in
  (* Decide IPv4 or IPv6 *)
  let newNetworkLayerType :=
    if is_nil (IP_To4 (ind_DstIP indicator)) then LayerTypeIPv6
    else LayerTypeIPv4 in
  (* Create new network layer *)
  match createCarrierNetworkLayer newNetworkLayerType (ind_DstIP indicator)
          (ind_SrcIP indicator) (id p) 128 newTransportLayer with
  | Err err => (p, [], Some (Errorf "handshake" err))
  | Ok newNetworkLayer =>
    (* Decide Loopback or Ethernet; create new link layer *)
    match createNewLinkLayer p (decideLinkLayerType p) newNetworkLayer with
    | Err err => (p, [], Some (Errorf "handshake" err))
    | Ok newLinkLayer =>
      (* Serialize layers *)
      match serialize newLinkLayer newNetworkLayer (TCPLayer newTransportLayer) [] with
      | Err err => (p, [], Some (Errorf "handshake" err))
      | Ok data =>
        (* Write packet data *)
        match Handle_WritePacketData (upHandle p) data with
        | Some err =>
            (p, [WritePacketData (upHandle p) data],
             Some (Errorf "handshake" (Errorf "write" err)))
        | None =>
            (* IPv4 Id *)
            let p' :=
              match newNetworkLayerType with
              | LayerTypeIPv4 => set_id p (uint16 (id p + 1))
              | _ => p
              end in
            (p', [WritePacketData (upHandle p) data], None)
        end
      end
    end
  end.

(** The key of the forward table for an inner packet carried by a
    carrier segment (qPortDist in handleListen). *)
Definition flowKey (indicator encappedIndicator : packetIndicator) : quintuple :=
  {| q_SrcIP := IP_String (ind_SrcIP encappedIndicator);
     q_SrcPort := ind_SrcPort encappedIndicator;
     q_DstIP := IP_String (ind_SrcIP indicator);
     q_DstPort := ind_SrcPort indicator;
     q_Protocol := ind_TransportLayerType encappedIndicator |}.

(** "Distribute port": the lookup in portDist and, on a miss, the call
    of distPort followed by p.port++. *)
Definition distributePort (p : Server) (qPortDist : quintuple) : Z * Server :=
  match portDist p !! qPortDist with
  | Some distPort => (distPort, p)
  | None => (distPort p, set_port p (uint16 (port p + 1)))
  end.

(** "Modify transport layer" *)
Definition modifyTransportLayer (transportLayerType : LayerType)
    (transportLayer : TransportLayer) (srcPort : Z) : asserted TransportLayer :=
  match transportLayerType with
  | LayerTypeTCP =>
      match transportLayer with
      | TCPLayer tcpLayer => Asserted (TCPLayer (tcp_set_SrcPort tcpLayer srcPort))
      | _ => AssertionFailed
      end
  | LayerTypeUDP =>
      match transportLayer with
      | UDPLayer udpLayer => Asserted (UDPLayer (udp_set_SrcPort udpLayer srcPort))
      | _ => AssertionFailed
      end
  | t => Unsupported t
  end.

(** "Create new network layer" of handleListen *)
Definition createNewNetworkLayer (p : Server) (encappedIndicator : packetIndicator)
    (transportLayer : TransportLayer) : result NetworkLayer :=
  match ind_NetworkLayerType encappedIndicator with
  | LayerTypeIPv4 =>
      result_map IPv4Layer
        (createNetworkLayerIPv4 (IPv4Addr_IP (UpDev p)) (ind_DstIP encappedIndicator)
           (ind_Id encappedIndicator) (uint8 (ind_TTL encappedIndicator - 1))
           transportLayer)
  | LayerTypeIPv6 =>
      result_map IPv6Layer
        (createNetworkLayerIPv6 (IPv6Addr_IP (UpDev p)) (ind_DstIP encappedIndicator)
           transportLayer)
  | t => Err (Errorf "create network layer" (TypeNotSupport t))
  end.

(** The key and the value that handleListen records in the NAT table
    (qNAT and ps). *)
Definition natKey (p : Server) (encappedIndicator : packetIndicator) : quintuple :=
  {| q_SrcIP := IP_String (IPv4Addr_IP (UpDev p));
     q_SrcPort := ind_SrcPort encappedIndicator;
     q_DstIP := IP_String (ind_DstIP encappedIndicator);
     q_DstPort := ind_DstPort encappedIndicator;
     q_Protocol := ind_TransportLayerType encappedIndicator |}.

Definition natSrc (indicator : packetIndicator) (qPortDist : quintuple)
    (handle : Handle) : encappedPacketSrc :=
  {| ps_SrcIP := IP_String (ind_SrcIP indicator);
     ps_SrcPort := ind_SrcPort indicator;
     ps_EncappedSrcIP := q_SrcIP qPortDist;
     ps_EncappedSrcPort := q_SrcPort qPortDist;
     ps_Handle := handle |}.

(** handleListen from "Modify transport layer" to its end, given the
    port that "Distribute port" came up with. *)
Definition redirectInbound (p : Server) (packet : Packet) (handle : Handle)
    (indicator encappedIndicator : packetIndicator) (qPortDist : quintuple)
    (distPort : Z) : Server * list Output :=
  (* Modify transport layer *)
  match modifyTransportLayer (ind_TransportLayerType encappedIndicator)
          (ind_TransportLayer encappedIndicator) distPort with
  | AssertionFailed => (p, [Panic])
  | Unsupported t =>
      (p, [Println (Errorf "handle listen"
                      (Errorf "create transport layer" (TypeNotSupport t)))])
  | Asserted transportLayer =>
    (* Create new network layer *)
    match createNewNetworkLayer p encappedIndicator transportLayer with
    | Err err => (p, [Println (Errorf "handle listen" err)])
    | Ok newNetworkLayer =>
      (* Decide Loopback or Ethernet; create new link layer *)
      match createNewLinkLayer p (decideLinkLayerType p) newNetworkLayer with
      | Err err => (p, [Println (Errorf "handle listen" err)])
      | Ok newLinkLayer =>
        (* Record the source and the source device of the packet *)
        let qNAT := natKey p encappedIndicator in
        let ps := natSrc indicator qPortDist handle in
        let p := set_nat p (<[qNAT := ps]> (nat p)) in
        (* Serialize layers *)
        match serialize newLinkLayer newNetworkLayer transportLayer
                (Payload (ind_set_layers encappedIndicator
                            (ind_NetworkLayer encappedIndicator) transportLayer)) with
        | Err err => (p, [Println (Errorf "handle listen" err)])
        | Ok data =>
          (* Write packet data *)
          let written :=
            match Handle_WritePacketData (upHandle p) data with
            | Some err => [Println (Errorf "handle listen" (Errorf "write" err))]
            | None => []
            end in
          (p, [WritePacketData (upHandle p) data] ++ written ++
              [Printf_RedirectInbound (ind_TransportLayerType encappedIndicator)
                 (SrcAddr encappedIndicator) (DstAddr encappedIndicator)
                 (Metadata_Length packet)])
        end
      end
    end
  end.

(** func (p *Server) handleListen(packet gopacket.Packet, handle *pcap.Handle) *)
Definition handleListen (p : Server) (packet : Packet) (handle : Handle)
    : Server * list Output :=
  (* Parse packet *)
  match parsePacket packet with
  | Err err => (p, [Println (Errorf "handle listen" err)])
  | Ok indicator =>
    (* Handshaking with client (SYN+ACK) *)
    if ind_SYN indicator then
      match handshake p indicator with
      | (p, out, Some err) => (p, out ++ [Println (Errorf "handle listen" err)])
      | (p, out, None) =>
          (p, out ++ [Printf_Connect (ind_SrcIP indicator) (ind_SrcPort indicator)])
      end
    else
      (* Empty payload *)
      match ind_ApplicationLayer indicator with
      | None => (p, [])
      | Some contents =>
        (* Ack *)
        let srcAddr := SrcAddr indicator in
        let p :=
          set_acks p
            (<[srcAddr := uint32 (mapget (acks p) srcAddr
                                  + Z.of_nat (length contents))]> (acks p)) in
        (* Parse encapped packet *)
        match parseEncappedPacket contents with
        | Err err => (p, [Println (Errorf "handle listen" err)])
        | Ok encappedIndicator =>
          (* Distribute port *)
          let qPortDist := flowKey indicator encappedIndicator in
          let '(distPort, p) := distributePort p qPortDist in
          redirectInbound p packet handle indicator encappedIndicator
            qPortDist distPort
        end
      end
  end.

(** The key under which handleUpstream looks a frame up (q). *)
Definition reverseKey (indicator : packetIndicator) : quintuple :=
  {| q_SrcIP := IP_String (ind_DstIP indicator);
     q_SrcPort := ind_DstPort indicator;
     q_DstIP := IP_String (ind_SrcIP indicator);
     q_DstPort := ind_SrcPort indicator;
     q_Protocol := ind_TransportLayerType indicator |}.

(** "NAT back encapped network layer" *)
Definition modifyNetworkLayer (networkLayerType : LayerType)
    (networkLayer : NetworkLayer) (srcIP : IP) : asserted NetworkLayer :=
  match networkLayerType with
  | LayerTypeIPv4 =>
      match networkLayer with
      | IPv4Layer ipv4Layer => Asserted (IPv4Layer (ip4_set_SrcIP ipv4Layer srcIP))
      | _ => AssertionFailed
      end
  | LayerTypeIPv6 =>
      match networkLayer with
      | IPv6Layer ipv6Layer => Asserted (IPv6Layer (ip6_set_SrcIP ipv6Layer srcIP))
      | _ => AssertionFailed
      end
  | t => Unsupported t
  end.

(** handleUpstream from "Construct contents of new application layer"
    to its end; [indicator] points to the layers as the two switches
    before left them. *)
Definition redirectOutbound (p : Server) (packet : Packet)
    (indicator : packetIndicator) (ps : encappedPacketSrc) : Server * list Output :=
  (* Construct contents of new application layer *)
  let contents := Contents indicator in
  (* Create new transport layer *)
  let addr := Sprintf_addr (ps_SrcIP ps) (ps_SrcPort ps) in
  let newTransportLayer :=
    createTransportLayerTCP (ListenPort p) (ps_SrcPort ps)
      (mapget (seqs p) addr) (mapget (acks p) addr) in
  (* Decide IPv4 or IPv6 *)
  let isIPv4 := negb (is_nil (IP_To4 (IPAddr_IP (GatewayDev p)))) in
  let upDevIP := if isIPv4 then IPv4Addr_IP (UpDev p) else IPv6Addr_IP (UpDev p) in
  let newNetworkLayerType := if isIPv4 then LayerTypeIPv4 else LayerTypeIPv6 in
  if is_nil upDevIP then
    (p, [Println (Errorf "handle upstream"
                    (errors_New "ip version transition not support"))])
  else
    (* Create new network layer *)
    match createCarrierNetworkLayer newNetworkLayerType upDevIP
            (ParseIP (ps_SrcIP ps)) (id p) (uint8 (ind_TTL indicator - 1))
            newTransportLayer with
    | Err err => (p, [Println (Errorf "handle upstream" err)])
    | Ok newNetworkLayer =>
      (* Create new link layer.  newLinkLayerType is declared at the top
         of the function and assigned nowhere in it: the switch reads
         the zero value of its type. *)
      let newLinkLayerType := LayerTypeZero in
      match createNewLinkLayer p newLinkLayerType newNetworkLayer with
      | Err err => (p, [Println (Errorf "handle upstream" err)])
      | Ok newLinkLayer =>
        (* Serialize layers *)
        match serialize newLinkLayer newNetworkLayer (TCPLayer newTransportLayer)
                contents with
        | Err err => (p, [Println (Errorf "handle upstream" err)])
        | Ok data =>
          (* Write packet data *)
          match Handle_WritePacketData (ps_Handle ps) data with
          | Some err =>
              (p, [WritePacketData (ps_Handle ps) data;
                   Println (Errorf "handle upstream" (Errorf "write" err))])
          | None =>
              (* TCP Seq *)
              let p :=
                set_seqs p
                  (<[addr := uint32 (mapget (seqs p) addr
                                     + Z.of_nat (length contents))]> (seqs p)) in
              (* IPv4 Id *)
              let p :=
                match newNetworkLayerType with
                | LayerTypeIPv4 => set_id p (uint16 (id p + 1))
                | _ => p
                end in
              (p, [WritePacketData (ps_Handle ps) data;
                   Printf_RedirectOutbound (ind_TransportLayerType indicator)
                     (SrcAddr indicator) (DstAddr indicator)
                     (Metadata_Length packet)])
          end
        end
      end
    end.

(** func (p *Server) handleUpstream(packet gopacket.Packet) *)
Definition handleUpstream (p : Server) (packet : Packet) : Server * list Output :=
  (* Parse packet *)
  match parsePacket packet with
  | Err err => (p, [Println (Errorf "handle upstream" err)])
  | Ok indicator =>
    (* NAT *)
    let q := reverseKey indicator in
    match nat p !! q with
    | None => (p, [])
    | Some ps =>
      (* NAT back encapped transport layer *)
      match modifyTransportLayer (ind_TransportLayerType indicator)
              (ind_TransportLayer indicator) (ps_EncappedSrcPort ps) with
      | AssertionFailed => (p, [Panic])
      | Unsupported t =>
          (p, [Println (Errorf "handle upstream"
                          (Errorf "create encapped transport layer"
                             (TypeNotSupport t)))])
      | Asserted transportLayer =>
        (* NAT back encapped network layer: its default case prints and
           goes on *)
        match modifyNetworkLayer (ind_NetworkLayerType indicator)
                (ind_NetworkLayer indicator) (ParseIP (ps_EncappedSrcIP ps)) with
        | AssertionFailed => (p, [Panic])
        | Unsupported t =>
            let '(p', out) :=
              redirectOutbound p packet
                (ind_set_layers indicator (ind_NetworkLayer indicator) transportLayer)
                ps in
            (p', Println (Errorf "handle upstream"
                            (Errorf "create encapped network layer"
                               (TypeNotSupport t))) :: out)
        | Asserted networkLayer =>
            redirectOutbound p packet
              (ind_set_layers indicator networkLayer transportLayer) ps
        end
      end
    end
  end.

(** The Ack step of handleListen for a segment with [contents]. *)
Definition advanceAck (p : Server) (indicator : packetIndicator)
    (contents : bytes) : Server :=
  set_acks p
    (<[SrcAddr indicator :=
         uint32 (mapget (acks p) (SrcAddr indicator) + Z.of_nat (length contents))]>
       (acks p)).

(** A carrier data segment: no SYN, an application layer, and an inner
    packet that parses.  The result is what handleListen has in hand
    when it reaches "Distribute port". *)
Definition innerFlow (packet : Packet)
    : option (packetIndicator * packetIndicator * bytes) :=
  match parsePacket packet with
  | Ok indicator =>
      if ind_SYN indicator then None
      else match ind_ApplicationLayer indicator with
           | Some contents =>
               match parseEncappedPacket contents with
               | Ok encappedIndicator => Some (indicator, encappedIndicator, contents)
               | Err _ => None
               end
           | None => None
           end
  | Err _ => None
  end.

Definition innerFlowKey (packet : Packet) : option quintuple :=
  (fun f => flowKey f.1.1 f.1.2) <$> innerFlow packet.

(** ** Runs

    A frame read from a listen handle or from the upstream handle; the
    handlers are taken one frame at a time. *)

Inductive Frame :=
| FromListen (packet : Packet) (handle : Handle)
| FromUpstream (packet : Packet).

Definition handle_frame (p : Server) (f : Frame) : Server * list Output :=
  match f with
  | FromListen packet handle => handleListen p packet handle
  | FromUpstream packet => handleUpstream p packet
  end.

Fixpoint run (p : Server) (frames : list Frame) : Server * list Output :=
  match frames with
  | [] => (p, [])
  | f :: frames =>
      let '(p, out) := handle_frame p f in
      let '(p, out') := run p frames in
      (p, out ++ out')
  end.

(** Frames that all come from listen handles. *)
Definition listenFrames (packets : list (Packet * Handle)) : list Frame :=
  (fun ph => FromListen ph.1 ph.2) <$> packets.

End Handlers.

(** ** A wire-level environment

    Modelled from the spec: the layer codec (parsePacket,
    parseEncappedPacket, the create... builders, serialize and the
    methods of the indicator and of Device) is not in server.go.  This
    instance follows section 4.1: frames with an Ethernet or loopback
    link layer, an IPv4 header without options or an IPv6 header
    without extension headers, and TCP or UDP; builders that fill in
    the headers, a SYN+ACK with a fixed window and no options, protocol
    and EtherType derived from the layer above; serialization with
    lengths and checksums computed.  The text form of an address is
    the one of Go's package net: dotted decimal for IPv4, and for IPv6
    lower-case groups without leading zeros, the leftmost longest run
    of two or more zero groups written as a double colon.  It serves to
    run the handlers on concrete frames. *)

Module Wire.

Definition be16 (z : Z) : bytes := [z / 256 mod 256; z mod 256].
Definition be32 (z : Z) : bytes := be16 (z / 65536 mod 65536) ++ be16 (z mod 65536).
Definition byte_at (b : bytes) (i : Datatypes.nat) : Z := nth i b 0.
Definition rd16 (b : bytes) (i : Datatypes.nat) : Z := byte_at b i * 256 + byte_at b (S i).
Definition rd32 (b : bytes) (i : Datatypes.nat) : Z := rd16 b i * 65536 + rd16 b (2 + i).

Fixpoint sum16 (b : bytes) : Z :=
  match b with
  | hi :: lo :: rest => hi * 256 + lo + sum16 rest
  | [hi] => hi * 256
  | [] => 0
  end.

(** The Internet checksum of a byte string. *)
Definition checksum (b : bytes) : Z :=
  let s := sum16 b in
  let s := s mod 65536 + s / 65536 in
  let s := s mod 65536 + s / 65536 in
  65535 - s.

(** net.IP.To4 *)
Definition To4 (ip : IP) : IP :=
  if decide (length ip = 4%nat) then ip
  else if decide (length ip = 16%nat) then
    if decide (take 12 ip = [0; 0; 0; 0; 0; 0; 0; 0; 0; 0; 255; 255])
    then drop 12 ip else []
  else [].

Definition hex_digit (z : Z) : string :=
  match z with
  | 0 => "0" | 1 => "1" | 2 => "2" | 3 => "3" | 4 => "4" | 5 => "5"
  | 6 => "6" | 7 => "7" | 8 => "8" | 9 => "9" | 10 => "a" | 11 => "b"
  | 12 => "c" | 13 => "d" | 14 => "e" | _ => "f"
  end.

Definition hex16 (z : Z) : string :=
  (if 4096 <=? z then hex_digit (z / 4096 mod 16) else "")
  +:+ (if 256 <=? z then hex_digit (z / 256 mod 16) else "")
  +:+ (if 16 <=? z then hex_digit (z / 16 mod 16) else "")
  +:+ hex_digit (z mod 16).

Fixpoint groups16 (b : bytes) : list Z :=
  match b with
  | hi :: lo :: rest => (hi * 256 + lo) :: groups16 rest
  | _ => []
  end.

Definition hex8 (z : Z) : string :=
  hex_digit (z / 16 mod 16) +:+ hex_digit (z mod 16).

(** The number of zero groups at the head of a list of groups. *)
Fixpoint zero_run (gs : list Z) : Datatypes.nat :=
  match gs with
  | 0 :: rest => S (zero_run rest)
  | _ => 0%nat
  end.

(** "Find longest run of zeros": where the leftmost longest run of zero
    groups starts, counted in groups from [i], and its length. *)
Fixpoint longest_zero_run (i : Datatypes.nat) (gs : list Z)
    (best : Datatypes.nat * Datatypes.nat) : Datatypes.nat * Datatypes.nat :=
  match gs with
  | [] => best
  | _ :: rest =>
      longest_zero_run (S i) rest
        (if (best.2 <? zero_run gs)%nat then (i, zero_run gs) else best)
  end.

(** net.IP.String: "<nil>" for an empty slice, dotted decimal for an
    address that has a four-byte form, the groups of a 16-byte address
    with the longest run of zero groups (a single zero group is left
    alone) replaced by "::", and "?" followed by the bytes in
    hexadecimal for any other length. *)
Definition String (ip : IP) : string :=
  if is_nil ip then "<nil>"
  else
    match To4 ip with
    | [a; b; c; d] => String.concat "." (pretty <$> [a; b; c; d])
    | _ =>
        if decide (length ip = 16%nat) then
          let gs := groups16 ip in
          let run := longest_zero_run 0 gs (0%nat, 0%nat) in
          if (run.2 <? 2)%nat then String.concat ":" (hex16 <$> gs)
          else
            String.concat ":" (hex16 <$> take run.1 gs) +:+ "::"
            +:+ String.concat ":" (hex16 <$> drop (run.1 + run.2) gs)
        else "?" +:+ String.concat "" (hex8 <$> ip)
    end.

Fixpoint split (sep : Ascii.ascii) (s : string) : list string :=
  match s with
  | EmptyString => [EmptyString]
  | String.String c rest =>
      if decide (c = sep) then EmptyString :: split sep rest
      else match split sep rest with
           | h :: t => String.String c h :: t
           | [] => [String.String c EmptyString]
           end
  end.

Definition digit_of (base : Z) (c : Ascii.ascii) : option Z :=
  let n := Z.of_nat (Ascii.nat_of_ascii c) in
  let v := if (48 <=? n) && (n <=? 57) then n - 48
           else if (97 <=? n) && (n <=? 102) then n - 87
           else if (65 <=? n) && (n <=? 70) then n - 55
           else base in
  if v <? base then Some v else None.

Fixpoint number_from (base : Z) (acc : Z) (s : string) : option Z :=
  match s with
  | EmptyString => Some acc
  | String.String c rest =>
      match digit_of base c with
      | Some d => number_from base (acc * base + d) rest
      | None => None
      end
  end.

Definition number (base bound : Z) (s : string) : option Z :=
  match s with
  | EmptyString => None
  | _ => match number_from base 0 s with
         | Some n => if n <? bound then Some n else None
         | None => None
         end
  end.

(** The four numbers of a dotted quad. *)
Definition parseIPv4 (s : string) : option (list Z) :=
  match mapM (number 10 256) (split "."%char s) with
  | Some [a; b; c; d] => Some [a; b; c; d]
  | _ => None
  end.

Definition has_dot (s : string) : bool :=
  negb (length (split "."%char s) =? 1)%nat.

(** The 16-bit groups of the fields between colons; the last field may
    be a dotted quad, which makes two groups, where [dotted] allows it. *)
Fixpoint groups_of (dotted : bool) (fields : list string) : option (list Z) :=
  match fields with
  | [] => Some []
  | f :: rest =>
      match rest with
      | [] =>
          if has_dot f then
            if dotted then
              match parseIPv4 f with
              | Some [a; b; c; d] => Some [a * 256 + b; c * 256 + d]
              | _ => None
              end
            else None
          else (fun g => [g]) <$> number 16 65536 f
      | _ =>
          match number 16 65536 f, groups_of dotted rest with
          | Some g, Some gs => Some (g :: gs)
          | _, _ => None
          end
      end
  end.

(** The text before and after the first "::" of a string. *)
Fixpoint cut_ellipsis (s : string) : option (string * string) :=
  match s with
  | EmptyString => None
  | String.String c rest =>
      match rest with
      | String.String c' rest' =>
          if decide (c = ":"%char ∧ c' = ":"%char) then Some (EmptyString, rest')
          else (fun lr => (String.String c lr.1, lr.2)) <$> cut_ellipsis rest
      | EmptyString => None
      end
  end.

(** The groups of an IPv6 address in text form: eight of them, or fewer
    around one "::" that stands for at least one zero group. *)
Definition parseIPv6 (s : string) : IP :=
  let fields (part : string) :=
    if decide (part = EmptyString) then [] else split ":"%char part in
  match cut_ellipsis s with
  | None =>
      match groups_of true (split ":"%char s) with
      | Some gs => if decide (length gs = 8%nat) then concat (be16 <$> gs) else []
      | None => []
      end
  | Some (before, after) =>
      match groups_of false (fields before), groups_of true (fields after) with
      | Some gl, Some gr =>
          if decide (length gl + length gr < 8)%nat then
            concat (be16 <$> (gl ++ replicate (8 - length gl - length gr) 0 ++ gr))
          else []
      | _, _ => []
      end
  end.

Fixpoint first_separator (s : string) : option Ascii.ascii :=
  match s with
  | EmptyString => None
  | String.String c rest =>
      if decide (c = "."%char ∨ c = ":"%char) then Some c else first_separator rest
  end.

(** net.ParseIP: the first dot or colon of the text decides between the
    dotted form, returned as a 16-byte address, and the IPv6 form; nil
    for anything else. *)
Definition ParseIP (s : string) : IP :=
  match first_separator s with
  | Some c =>
      if decide (c = "."%char) then
        match parseIPv4 s with
        | Some [a; b; c; d] => [0; 0; 0; 0; 0; 0; 0; 0; 0; 0; 255; 255; a; b; c; d]
        | _ => []
        end
      else parseIPv6 s
  | None => []
  end.

(** Device.IPAddr, IPv4Addr and IPv6Addr followed by their IP field:
    the first address, the first IPv4 and the first IPv6 address. *)
Definition IPAddr_IP (dev : Device) : IP := hd [] (dev_IPAddrs dev).
Definition IPv4Addr_IP (dev : Device) : IP :=
  hd [] (filter (fun ip => is_nil (To4 ip) = false) (dev_IPAddrs dev)).
Definition IPv6Addr_IP (dev : Device) : IP :=
  hd [] (filter (fun ip => is_nil (To4 ip) = true ∧ length ip = 16%nat)
           (dev_IPAddrs dev)).

Definition truncated : error := errors_New "truncated".

(** Decoding from the transport layer on. *)
Definition decodeTransport (networkLayer : NetworkLayer) (networkLayerType : LayerType)
    (srcIP dstIP : IP) (ipId ttl protocol : Z) (seg : bytes) : result packetIndicator :=
  let app (payload : bytes) := if is_nil payload then None else Some payload in
  if protocol =? 6 then
    if (length seg <? 20)%nat then Err truncated
    else
      let flags := byte_at seg 13 in
      let offset := byte_at seg 12 / 16 in
      let tcp :=
        {| tcp_SrcPort := rd16 seg 0; tcp_DstPort := rd16 seg 2;
           tcp_Seq := rd32 seg 4; tcp_Ack := rd32 seg 8;
           tcp_DataOffset := offset;
           tcp_FIN := Z.testbit flags 0; tcp_SYN := Z.testbit flags 1;
           tcp_RST := Z.testbit flags 2; tcp_PSH := Z.testbit flags 3;
           tcp_ACK := Z.testbit flags 4; tcp_Window := rd16 seg 14 |} in
      Ok {| ind_NetworkLayer := networkLayer;
            ind_NetworkLayerType := networkLayerType;
            ind_SrcIP := srcIP; ind_DstIP := dstIP;
            ind_Id := ipId; ind_TTL := ttl;
            ind_TransportLayer := TCPLayer tcp;
            ind_TransportLayerType := LayerTypeTCP;
            ind_SrcPort := tcp_SrcPort tcp; ind_DstPort := tcp_DstPort tcp;
            ind_Seq := tcp_Seq tcp; ind_Ack := tcp_Ack tcp;
            ind_SYN := tcp_SYN tcp; ind_ACK := tcp_ACK tcp;
            ind_ApplicationLayer := app (drop (Z.to_nat (offset * 4)) seg) |}
  else if protocol =? 17 then
    if (length seg <? 8)%nat then Err truncated
    else
      let udp := {| udp_SrcPort := rd16 seg 0; udp_DstPort := rd16 seg 2 |} in
      Ok {| ind_NetworkLayer := networkLayer;
            ind_NetworkLayerType := networkLayerType;
            ind_SrcIP := srcIP; ind_DstIP := dstIP;
            ind_Id := ipId; ind_TTL := ttl;
            ind_TransportLayer := UDPLayer udp;
            ind_TransportLayerType := LayerTypeUDP;
            ind_SrcPort := udp_SrcPort udp; ind_DstPort := udp_DstPort udp;
            ind_Seq := 0; ind_Ack := 0; ind_SYN := false; ind_ACK := false;
            ind_ApplicationLayer := app (drop 8 seg) |}
  else Err (errors_New "transport layer not support").

(** parseEncappedPacket: decoding from the network layer on. *)
Definition parseEncappedPacket (b : bytes) : result packetIndicator :=
  let version := byte_at b 0 / 16 in
  if version =? 4 then
    if (length b <? 20)%nat then Err truncated
    else
      let ipv4 :=
        {| ip4_Id := rd16 b 4; ip4_Flags := byte_at b 6 / 32;
           ip4_TTL := byte_at b 8; ip4_Protocol := byte_at b 9;
           ip4_SrcIP := take 4 (drop 12 b); ip4_DstIP := take 4 (drop 16 b) |} in
      decodeTransport (IPv4Layer ipv4) LayerTypeIPv4 (ip4_SrcIP ipv4) (ip4_DstIP ipv4)
        (ip4_Id ipv4) (ip4_TTL ipv4) (ip4_Protocol ipv4)
        (drop (Z.to_nat (byte_at b 0 mod 16 * 4)) (take (Z.to_nat (rd16 b 2)) b))
  else if version =? 6 then
    if (length b <? 40)%nat then Err truncated
    else
      let ipv6 :=
        {| ip6_NextHeader := byte_at b 6; ip6_HopLimit := byte_at b 7;
           ip6_SrcIP := take 16 (drop 8 b); ip6_DstIP := take 16 (drop 24 b) |} in
      decodeTransport (IPv6Layer ipv6) LayerTypeIPv6 (ip6_SrcIP ipv6) (ip6_DstIP ipv6)
        0 (ip6_HopLimit ipv6) (ip6_NextHeader ipv6)
        (take (Z.to_nat (rd16 b 4)) (drop 40 b))
  else Err (errors_New "network layer not support").

(** A captured frame: the link type of its handle, its bytes. *)
Record Packet := {
  pkt_LinkType : LayerType;
  pkt_Data : bytes
}.

Definition parsePacket (packet : Packet) : result packetIndicator :=
  match pkt_LinkType packet with
  | LayerTypeEthernet =>
      if (length (pkt_Data packet) <? 14)%nat then Err truncated
      else parseEncappedPacket (drop 14 (pkt_Data packet))
  | LayerTypeLoopback =>
      if (length (pkt_Data packet) <? 4)%nat then Err truncated
      else parseEncappedPacket (drop 4 (pkt_Data packet))
  | _ => Err (errors_New "link layer not support")
  end.

Definition Metadata_Length (packet : Packet) : Z :=
  Z.of_nat (length (pkt_Data packet)).

Definition Payload (indicator : packetIndicator) : bytes :=
  default [] (ind_ApplicationLayer indicator).

Definition SrcAddr (indicator : packetIndicator) : string :=
  Sprintf_addr (String (ind_SrcIP indicator)) (ind_SrcPort indicator).

Definition DstAddr (indicator : packetIndicator) : string :=
  Sprintf_addr (String (ind_DstIP indicator)) (ind_DstPort indicator).

Definition bit (b : bool) : Z := if b then 1 else 0.

Definition encodeTCP (tcp : TCP) (sum : Z) (payload : bytes) : bytes :=
  be16 (tcp_SrcPort tcp) ++ be16 (tcp_DstPort tcp)
  ++ be32 (tcp_Seq tcp) ++ be32 (tcp_Ack tcp)
  ++ [tcp_DataOffset tcp * 16;
      bit (tcp_FIN tcp) + 2 * bit (tcp_SYN tcp) + 4 * bit (tcp_RST tcp)
      + 8 * bit (tcp_PSH tcp) + 16 * bit (tcp_ACK tcp)]
  ++ be16 (tcp_Window tcp) ++ be16 sum ++ be16 0 ++ payload.

Definition encodeUDP (udp : UDP) (sum : Z) (payload : bytes) : bytes :=
  be16 (udp_SrcPort udp) ++ be16 (udp_DstPort udp)
  ++ be16 (8 + Z.of_nat (length payload)) ++ be16 sum ++ payload.

Definition protocolOf (transportLayer : TransportLayer) : result Z :=
  match transportLayer with
  | TCPLayer _ => Ok 6
  | UDPLayer _ => Ok 17
  | OtherTransportLayer t => Err (TypeNotSupport t)
  end.

(** The transport header and the payload, with the checksum over the
    pseudo-header [pseudo protocol length]. *)
Definition encodeSegment (pseudo : Z -> Z -> bytes)
    (transportLayer : TransportLayer) (payload : bytes) : result bytes :=
  match transportLayer with
  | TCPLayer tcp =>
      let raw := encodeTCP tcp 0 payload in
      Ok (encodeTCP tcp (checksum (pseudo 6 (Z.of_nat (length raw)) ++ raw)) payload)
  | UDPLayer udp =>
      let raw := encodeUDP udp 0 payload in
      Ok (encodeUDP udp (checksum (pseudo 17 (Z.of_nat (length raw)) ++ raw)) payload)
  | OtherTransportLayer t => Err (TypeNotSupport t)
  end.

Definition encodeIPv4 (ipv4 : IPv4) (sum : Z) (seg : bytes) : bytes :=
  [69; 0] ++ be16 (20 + Z.of_nat (length seg)) ++ be16 (ip4_Id ipv4)
  ++ be16 (ip4_Flags ipv4 * 8192) ++ [ip4_TTL ipv4; ip4_Protocol ipv4]
  ++ be16 sum ++ ip4_SrcIP ipv4 ++ ip4_DstIP ipv4.

(** The network header, the transport header and the payload. *)
Definition encodeNetwork (networkLayer : NetworkLayer)
    (transportLayer : TransportLayer) (payload : bytes) : result bytes :=
  match networkLayer with
  | IPv4Layer ipv4 =>
      if decide (length (ip4_SrcIP ipv4) = 4%nat ∧ length (ip4_DstIP ipv4) = 4%nat) then
        match encodeSegment
                (fun protocol len =>
                   ip4_SrcIP ipv4 ++ ip4_DstIP ipv4 ++ [0; protocol] ++ be16 len)
                transportLayer payload with
        | Ok seg =>
            Ok (encodeIPv4 ipv4 (checksum (encodeIPv4 ipv4 0 seg)) seg ++ seg)
        | Err e => Err e
        end
      else Err (errors_New "invalid ipv4 address")
  | IPv6Layer ipv6 =>
      if decide (length (ip6_SrcIP ipv6) = 16%nat ∧ length (ip6_DstIP ipv6) = 16%nat) then
        match encodeSegment
                (fun protocol len =>
                   ip6_SrcIP ipv6 ++ ip6_DstIP ipv6 ++ be32 len ++ [0; 0; 0; protocol])
                transportLayer payload with
        | Ok seg =>
            Ok ([96; 0; 0; 0] ++ be16 (Z.of_nat (length seg))
                ++ [ip6_NextHeader ipv6; ip6_HopLimit ipv6]
                ++ ip6_SrcIP ipv6 ++ ip6_DstIP ipv6 ++ seg)
        | Err e => Err e
        end
      else Err (errors_New "invalid ipv6 address")
  | OtherNetworkLayer t => Err (TypeNotSupport t)
  end.

Definition encodeLink (linkLayer : LinkLayer) : result bytes :=
  match linkLayer with
  | LoopbackLayer lo => Ok [lo_Family lo; 0; 0; 0]
  | EthernetLayer eth =>
      if decide (length (eth_SrcMAC eth) = 6%nat ∧ length (eth_DstMAC eth) = 6%nat)
      then Ok (eth_DstMAC eth ++ eth_SrcMAC eth ++ be16 (eth_EthernetType eth))
      else Err (errors_New "invalid mac")
  end.

Definition serialize (linkLayer : LinkLayer) (networkLayer : NetworkLayer)
    (transportLayer : TransportLayer) (payload : bytes) : result bytes :=
  match encodeLink linkLayer with
  | Ok l => result_map (app l) (encodeNetwork networkLayer transportLayer payload)
  | Err e => Err e
  end.

(** indicator.Contents(): the frame from the network layer on. *)
Definition Contents (indicator : packetIndicator) : bytes :=
  match encodeNetwork (ind_NetworkLayer indicator) (ind_TransportLayer indicator)
          (Payload indicator) with
  | Ok b => b
  | Err _ => []
  end.

Definition createTCPLayerSYNACK (srcPort dstPort seq ack : Z) : TCP :=
  {| tcp_SrcPort := srcPort; tcp_DstPort := dstPort; tcp_Seq := seq; tcp_Ack := ack;
     tcp_DataOffset := 5; tcp_FIN := false; tcp_SYN := true; tcp_RST := false;
     tcp_PSH := false; tcp_ACK := true; tcp_Window := 65535 |}.

Definition createTransportLayerTCP (srcPort dstPort seq ack : Z) : TCP :=
  {| tcp_SrcPort := srcPort; tcp_DstPort := dstPort; tcp_Seq := seq; tcp_Ack := ack;
     tcp_DataOffset := 5; tcp_FIN := false; tcp_SYN := false; tcp_RST := false;
     tcp_PSH := false; tcp_ACK := true; tcp_Window := 65535 |}.

Definition createNetworkLayerIPv4 (srcIP dstIP : IP) (ipId ttl : Z)
    (transportLayer : TransportLayer) : result IPv4 :=
  if is_nil (To4 srcIP) || is_nil (To4 dstIP)
  then Err (Errorf "create network layer" (errors_New "invalid ipv4 address"))
  else
    result_map
      (fun protocol =>
         {| ip4_Id := ipId; ip4_Flags := 0; ip4_TTL := ttl; ip4_Protocol := protocol;
            ip4_SrcIP := To4 srcIP; ip4_DstIP := To4 dstIP |})
      (protocolOf transportLayer).

Definition createNetworkLayerIPv6 (srcIP dstIP : IP)
    (transportLayer : TransportLayer) : result IPv6 :=
  if decide (length srcIP = 16%nat ∧ length dstIP = 16%nat) then
    result_map
      (fun protocol =>
         {| ip6_NextHeader := protocol; ip6_HopLimit := 64;
            ip6_SrcIP := srcIP; ip6_DstIP := dstIP |})
      (protocolOf transportLayer)
  else Err (Errorf "create network layer" (errors_New "invalid ipv6 address")).

Definition createLinkLayerLoopback : Loopback := {| lo_Family := 2 |}.

Definition createLinkLayerEthernet (srcMAC dstMAC : HardwareAddr)
    (networkLayer : NetworkLayer) : result Ethernet :=
  match networkLayer with
  | IPv4Layer _ =>
      Ok {| eth_SrcMAC := srcMAC; eth_DstMAC := dstMAC; eth_EthernetType := 2048 |}
  | IPv6Layer _ =>
      Ok {| eth_SrcMAC := srcMAC; eth_DstMAC := dstMAC; eth_EthernetType := 34525 |}
  | OtherNetworkLayer t => Err (Errorf "create link layer" (TypeNotSupport t))
  end.

(** A driver that accepts every write. *)
Definition WritePacketData_ok (handle : Handle) (data : bytes) : option error := None.

Definition env : Externals :=
  Build_Externals Packet parsePacket parseEncappedPacket Metadata_Length
    SrcAddr DstAddr Contents Payload createTCPLayerSYNACK createTransportLayerTCP
    createNetworkLayerIPv4 createNetworkLayerIPv6 createLinkLayerLoopback
    createLinkLayerEthernet serialize IPAddr_IP IPv4Addr_IP IPv6Addr_IP
    String To4 ParseIP WritePacketData_ok.

End Wire.

(** ** The frames of the scenarios of section 8

    A client at 10.0.0.2:40000, the server listening at 192.0.2.1:8080
    with the upstream addresses 198.51.100.1 and 2001:db8::1, the
    gateway 198.51.100.254, and inner flows towards 8.8.8.8:53 and
    [2001:db8::53]:53. *)

Module Scenario.

Definition clientIP : IP := [10; 0; 0; 2].
Definition serverIP : IP := [192; 0; 2; 1].
Definition upstreamIP : IP := [198; 51; 100; 1].
Definition upstreamIP6 : IP := [32; 1; 13; 184; 0; 0; 0; 0; 0; 0; 0; 0; 0; 0; 0; 1].
Definition gatewayIP : IP := [198; 51; 100; 254].
Definition remoteIP : IP := [8; 8; 8; 8].
Definition clientMAC : HardwareAddr := [2; 0; 0; 0; 0; 2].
Definition serverMAC : HardwareAddr := [2; 0; 0; 0; 0; 1].
Definition upstreamMAC : HardwareAddr := [2; 0; 0; 0; 1; 1].
Definition gatewayMAC : HardwareAddr := [2; 0; 0; 0; 1; 254].

Definition listenDev : Device :=
  {| dev_Name := "eth0"; dev_FriendlyName := "eth0"; dev_IPAddrs := [serverIP];
     dev_HardwareAddr := serverMAC; dev_IsLoop := false |}.
Definition upDev : Device :=
  {| dev_Name := "eth1"; dev_FriendlyName := "eth1";
     dev_IPAddrs := [upstreamIP; upstreamIP6];
     dev_HardwareAddr := upstreamMAC; dev_IsLoop := false |}.
Definition gatewayDev : Device :=
  {| dev_Name := "eth1"; dev_FriendlyName := "gateway"; dev_IPAddrs := [gatewayIP];
     dev_HardwareAddr := gatewayMAC; dev_IsLoop := false |}.

Definition listenHandle : Handle := 1%nat.
Definition upstreamHandle : Handle := 0%nat.

(** The server as [Open] leaves it before the first frame. *)
Definition server : Server :=
  Open_init
    {| ListenPort := 8080; ListenDevs := [listenDev]; UpDev := upDev;
       GatewayDev := gatewayDev; listenHandles := [listenHandle];
       upHandle := upstreamHandle; seqs := ∅; acks := ∅; id := 0; port := 0;
       portDist := ∅; nat := ∅ |}.

Definition bytes_of (r : result bytes) : bytes :=
  match r with Ok b => b | Err _ => [] end.

(** A carrier segment from the client to the listen port. *)
Definition carrier (seq : Z) (syn : bool) (payload : bytes) : Wire.Packet :=
  {| Wire.pkt_LinkType := LayerTypeEthernet;
     Wire.pkt_Data :=
       bytes_of
         (Wire.serialize
            (EthernetLayer {| eth_SrcMAC := clientMAC; eth_DstMAC := serverMAC;
                              eth_EthernetType := 2048 |})
            (IPv4Layer {| ip4_Id := 1; ip4_Flags := 2; ip4_TTL := 64;
                          ip4_Protocol := 6; ip4_SrcIP := clientIP;
                          ip4_DstIP := serverIP |})
            (TCPLayer {| tcp_SrcPort := 40000; tcp_DstPort := 8080;
                         tcp_Seq := seq; tcp_Ack := 0; tcp_DataOffset := 5;
                         tcp_FIN := false; tcp_SYN := syn; tcp_RST := false;
                         tcp_PSH := negb syn; tcp_ACK := negb syn;
                         tcp_Window := 65535 |})
            payload) |}.

Definition dnsQuery : bytes := [0; 1; 1; 0; 0; 1; 0; 0; 0; 0; 0; 0].

(** An inner IPv4+UDP packet from 10.0.0.2:[srcPort] to 8.8.8.8:53. *)
Definition innerUDP (ttl srcPort : Z) : bytes :=
  bytes_of
    (Wire.encodeNetwork
       (IPv4Layer {| ip4_Id := 7; ip4_Flags := 0; ip4_TTL := ttl; ip4_Protocol := 17;
                     ip4_SrcIP := clientIP; ip4_DstIP := remoteIP |})
       (UDPLayer {| udp_SrcPort := srcPort; udp_DstPort := 53 |})
       dnsQuery).


Definition syn (seq : Z) : Wire.Packet := carrier seq true [].
Definition data (seq : Z) (inner : bytes) : Wire.Packet := carrier seq false inner.

(** A UDP reply from 8.8.8.8:53 to 198.51.100.1:[dstPort], as captured
    on the upstream device. *)
Definition reply (dstPort : Z) : Wire.Packet :=
  {| Wire.pkt_LinkType := LayerTypeEthernet;
     Wire.pkt_Data :=
       bytes_of
         (Wire.serialize
            (EthernetLayer {| eth_SrcMAC := gatewayMAC; eth_DstMAC := upstreamMAC;
                              eth_EthernetType := 2048 |})
            (IPv4Layer {| ip4_Id := 9; ip4_Flags := 0; ip4_TTL := 57;
                          ip4_Protocol := 17; ip4_SrcIP := remoteIP;
                          ip4_DstIP := upstreamIP |})
            (UDPLayer {| udp_SrcPort := 53; udp_DstPort := dstPort |})
            [0; 1; 129; 128; 0; 1; 0; 1; 0; 0; 0; 0; 8; 8; 8; 8; 0; 0]) |}.

(** The server after the client's SYN with sequence number 42, and
    after the data segment of scenario 2 that follows it. *)
Definition afterSyn : Server :=
  (handleListen (H := Wire.env) server (syn 42) listenHandle).1.
Definition afterData : Server :=
  (handleListen (H := Wire.env) afterSyn (data 43 (innerUDP 64 55555)) listenHandle).1.

Definition client : string := "10.0.0.2:40000".


(** Three data segments with three inner flows (source ports 55555,
    55556 and 55557) and a payload that is no IP packet. *)
Definition threeFlows : list (@Packet Wire.env * Handle) :=
  [(data 43 (innerUDP 64 55555), listenHandle);
   (data 83 (innerUDP 64 55556), listenHandle);
   (data 123 (innerUDP 64 55557), listenHandle)].
Definition garbage : bytes := [1; 2; 3].

(** The key that scenario 2 is expected to leave in the NAT table (with
    the allocated port 49152), and the key the code leaves there. *)
Definition expectedKey : quintuple :=
  {| q_SrcIP := "198.51.100.1"; q_SrcPort := 49152; q_DstIP := "8.8.8.8";
     q_DstPort := 53; q_Protocol := LayerTypeUDP |}.
Definition recordedKey : quintuple :=
  {| q_SrcIP := "198.51.100.1"; q_SrcPort := 55555; q_DstIP := "8.8.8.8";
     q_DstPort := 53; q_Protocol := LayerTypeUDP |}.

End Scenario.

(** ** Bookkeeping over runs

    What a frame contributes to the tables of the server, for the
    properties of runs below. *)

Section Accounting.

Context `{Externals}.

(** The fields of the server that Open sets up and the handlers only
    read. *)
Definition config (p : Server)
    : Z * list Device * Device * Device * list Handle * Handle :=
  (ListenPort p, ListenDevs p, UpDev p, GatewayDev p, listenHandles p, upHandle p).

(** A carrier segment with the SYN flag from [client]. *)
Definition synFrom (client : string) (f : Frame) : bool :=
  match f with
  | FromListen packet _ =>
      match parsePacket packet with
      | Ok indicator => ind_SYN indicator && bool_decide (SrcAddr indicator = client)
      | Err _ => false
      end
  | FromUpstream _ => false
  end.

(** The number of payload bytes of a frame that the Ack step of
    handleListen adds to the counter of [client]. *)
Definition ackBytes (client : string) (f : Frame) : Z :=
  match f with
  | FromListen packet _ =>
      match parsePacket packet with
      | Ok indicator =>
          if ind_SYN indicator then 0
          else match ind_ApplicationLayer indicator with
               | Some contents =>
                   if bool_decide (SrcAddr indicator = client)
                   then Z.of_nat (length contents) else 0
               | None => 0
               end
      | Err _ => 0
      end
  | FromUpstream _ => 0
  end.

Fixpoint totalAckBytes (client : string) (frames : list Frame) : Z :=
  match frames with
  | [] => 0
  | f :: frames => ackBytes client f + totalAckBytes client frames
  end.

(** Whether handleListen reaches "Distribute port" on a frame. *)
Definition reachesDistribute (f : Frame) : bool :=
  match f with
  | FromListen packet _ =>
      match innerFlow packet with Some _ => true | None => false end
  | FromUpstream _ => false
  end.

Fixpoint distributions (frames : list Frame) : Z :=
  match frames with
  | [] => 0
  | f :: frames => (if reachesDistribute f then 1 else 0) + distributions frames
  end.

(** Whether a frame makes the server use up an IPv4 id: a SYN whose
    SYN+ACK is an IPv4 packet and whose handshake returns no error. *)
Definition consumesId (p : Server) (f : Frame) : bool :=
  match f with
  | FromListen packet _ =>
      match parsePacket packet with
      | Ok indicator =>
          ind_SYN indicator
          && negb (is_nil (IP_To4 (ind_DstIP indicator)))
          && match (handshake p indicator).2 with None => true | Some _ => false end
      | Err _ => false
      end
  | FromUpstream _ => false
  end.

(** A frame written to a handle other than [handle]. *)
Definition writes_elsewhere (handle : Handle) (o : Output) : bool :=
  match o with
  | WritePacketData h _ => negb (bool_decide (h = handle))
  | _ => false
  end.

End Accounting.

(** ** Open and Close

    The capture driver (package pcap) as Open and Close use it: opening
    a device, installing a filter on a handle, closing a handle.  A
    driver has a state of its own, which every call may change.
    [HardwareAddr_String] is the String method of net.HardwareAddr,
    which the listing of the devices prints. *)

Inductive Timeout := BlockForever.

Class Capture := {
  CaptureState : Type;
  OpenLive :
    string -> Z -> bool -> Timeout -> CaptureState -> result Handle * CaptureState;
  SetBPFFilter : Handle -> string -> CaptureState -> option error * CaptureState;
  Handle_Close : Handle -> CaptureState -> CaptureState;
  HardwareAddr_String : HardwareAddr -> string
}.

(** The Server struct as Open finds it and leaves it: the two device
    pointers may be nil, and upHandle is nil until the upstream device
    is open. *)
Record ServerStruct := {
  s_ListenPort : Z;
  s_ListenDevs : list Device;
  s_UpDev : option Device;
  s_GatewayDev : option Device;
  s_listenHandles : list Handle;
  s_upHandle : option Handle;
  s_seqs : gmap string Z;
  s_acks : gmap string Z;
  s_id : Z;
  s_port : Z;
  s_portDist : gmap quintuple Z;
  s_nat : gmap quintuple encappedPacketSrc
}.

(** What Open and Close do to the outside: text printed on standard
    output, and the calls of the driver with what they returned.
    [Call_Close None] is Close called on a nil handle. *)
Inductive SetupOutput :=
| Stdout (text : string)
| Call_OpenLive (device : string) (snaplen : Z) (promisc : bool)
    (timeout : Timeout) (r : result Handle)
| Call_SetBPFFilter (handle : Handle) (filter : string) (r : option error)
| Call_Close (handle : option Handle).

Definition newline : string := String "010"%char EmptyString.

Section Setup.

Context `{Externals} `{Capture}.

(** The struct with its pointers set is the server the handlers run
    on, and back. *)
Definition ready (p : ServerStruct) : option Server :=
  match s_UpDev p, s_GatewayDev p, s_upHandle p with
  | Some upDev, Some gatewayDev, Some handle =>
      Some {| ListenPort := s_ListenPort p; ListenDevs := s_ListenDevs p;
              UpDev := upDev; GatewayDev := gatewayDev;
              listenHandles := s_listenHandles p; upHandle := handle;
              seqs := s_seqs p; acks := s_acks p; id := s_id p; port := s_port p;
              portDist := s_portDist p; nat := s_nat p |}
  | _, _, _ => None
  end.

Definition struct_of (p : Server) : ServerStruct :=
  {| s_ListenPort := ListenPort p; s_ListenDevs := ListenDevs p;
     s_UpDev := Some (UpDev p); s_GatewayDev := Some (GatewayDev p);
     s_listenHandles := listenHandles p; s_upHandle := Some (upHandle p);
     s_seqs := seqs p; s_acks := acks p; s_id := id p; s_port := port p;
     s_portDist := portDist p; s_nat := nat p |}.

(** The first five statements of Open. *)
Definition resetTables (p : ServerStruct) : ServerStruct :=
  {| s_ListenPort := s_ListenPort p; s_ListenDevs := s_ListenDevs p;
     s_UpDev := s_UpDev p; s_GatewayDev := s_GatewayDev p;
     s_listenHandles := s_listenHandles p; s_upHandle := s_upHandle p;
     s_seqs := ∅; s_acks := ∅; s_id := 0; s_port := s_port p;
     s_portDist := ∅; s_nat := ∅ |}.

Definition set_handles (p : ServerStruct) (handles : list Handle)
    (up : option Handle) : ServerStruct :=
  {| s_ListenPort := s_ListenPort p; s_ListenDevs := s_ListenDevs p;
     s_UpDev := s_UpDev p; s_GatewayDev := s_GatewayDev p;
     s_listenHandles := handles; s_upHandle := up;
     s_seqs := s_seqs p; s_acks := s_acks p; s_id := s_id p; s_port := s_port p;
     s_portDist := s_portDist p; s_nat := s_nat p |}.

(** The loop that builds strIPs: the addresses of a device, the first
    as it is and each later one after a comma and a space. *)
Fixpoint strIPs_from (i : Datatypes.nat) (addrs : list IP) (strIPs : string)
    : string :=
  match addrs with
  | [] => strIPs
  | ip :: addrs =>
      strIPs_from (S i) addrs
        (if decide (i = 0%nat) then strIPs +:+ IP_String ip
         else strIPs +:+ (", " +:+ IP_String ip))
  end.

Definition strIPs (dev : Device) : string := strIPs_from 0 (dev_IPAddrs dev) "".

(** One line of the listing of the listen devices, after [lead]
    ("Listen on " for a single device, two spaces in the list). *)
Definition listenLine (lead : string) (dev : Device) : string :=
  if dev_IsLoop dev
  then lead +:+ dev_FriendlyName dev +:+ ": " +:+ strIPs dev +:+ newline
  else lead +:+ dev_FriendlyName dev +:+ " ["
       +:+ HardwareAddr_String (dev_HardwareAddr dev) +:+ "]: "
       +:+ strIPs dev +:+ newline.

Definition listing (devs : list Device) : list SetupOutput :=
  match devs with
  | [dev] => [Stdout (listenLine "Listen on " dev)]
  | _ => Stdout ("Listen on:" +:+ newline)
         :: ((fun dev => Stdout (listenLine "  " dev)) <$> devs)
  end.

Definition routeLine (upDev gatewayDev : Device) : string :=
  if negb (dev_IsLoop gatewayDev)
  then "Route upstream from " +:+ dev_FriendlyName upDev +:+ " ["
       +:+ HardwareAddr_String (dev_HardwareAddr upDev) +:+ "]: "
       +:+ strIPs upDev +:+ " to gateway ["
       +:+ HardwareAddr_String (dev_HardwareAddr gatewayDev) +:+ "]: "
       +:+ IP_String (IPAddr_IP gatewayDev) +:+ newline
  else "Route upstream to loopback " +:+ dev_FriendlyName upDev +:+ newline.

(** The two filters. *)
Definition listenFilter (listenPort : Z) : string :=
  "tcp && dst port " +:+ pretty listenPort.
Definition upstreamFilter (listenPort : Z) : string :=
  "(tcp || udp) && not dst port " +:+ pretty listenPort.

(** "Handles for listening": the loop over ListenDevs, from the
    handles appended so far. *)
Fixpoint openListenHandles (listenPort : Z) (devs : list Device)
    (handles : list Handle) (st : CaptureState)
    : list Handle * list SetupOutput * option error * CaptureState :=
  match devs with
  | [] => (handles, [], None, st)
  | dev :: devs =>
      let '(opened, st) := OpenLive (dev_Name dev) 1600 true BlockForever st in
      let call := Call_OpenLive (dev_Name dev) 1600 true BlockForever opened in
      match opened with
      | Err err => (handles, [call], Some (Errorf "open" err), st)
      | Ok handle =>
          let '(set, st) := SetBPFFilter handle (listenFilter listenPort) st in
          let call' := Call_SetBPFFilter handle (listenFilter listenPort) set in
          match set with
          | Some err => (handles, [call; call'], Some (Errorf "open" err), st)
          | None =>
              let '(handles, out, e, st) :=
                openListenHandles listenPort devs (handles ++ [handle]) st in
              (handles, call :: call' :: out, e, st)
          end
      end
  end.

(** func (p *Server) Open() error, up to "Start handling". *)
Definition Open_setup (p : ServerStruct) (st : CaptureState)
    : ServerStruct * list SetupOutput * option error * CaptureState :=
  let p := resetTables p in
  (* Verify *)
  if bool_decide (length (s_ListenDevs p) ≤ 0)%nat then
    (p, [], Some (Errorf "open" (errors_New "missing listen device")), st)
  else
    match s_UpDev p with
    | None => (p, [], Some (Errorf "open" (errors_New "missing upstream device")), st)
    | Some upDev =>
      match s_GatewayDev p with
      | None => (p, [], Some (Errorf "open" (errors_New "missing gateway")), st)
      | Some gatewayDev =>
        let printed :=
          listing (s_ListenDevs p) ++ [Stdout (routeLine upDev gatewayDev)] in
        (* Handles for listening *)
        let '(handles, out, e, st) :=
          openListenHandles (s_ListenPort p) (s_ListenDevs p) [] st in
        let p := set_handles p handles (s_upHandle p) in
        match e with
        | Some err => (p, printed ++ out, Some err, st)
        | None =>
          (* Handles for routing upstream *)
          let '(opened, st) := OpenLive (dev_Name upDev) 1600 true BlockForever st in
          let call := Call_OpenLive (dev_Name upDev) 1600 true BlockForever opened in
          match opened with
          | Err err =>
              (set_handles p handles None, printed ++ out ++ [call],
               Some (Errorf "open" err), st)
          | Ok handle =>
              let p := set_handles p handles (Some handle) in
              let '(set, st) :=
                SetBPFFilter handle (upstreamFilter (s_ListenPort p)) st in
              let call' :=
                Call_SetBPFFilter handle (upstreamFilter (s_ListenPort p)) set in
              match set with
              | Some err =>
                  (p, printed ++ out ++ [call; call'], Some (Errorf "open" err), st)
              | None => (p, printed ++ out ++ [call; call'], None, st)
              end
          end
        end
      end
    end.

(** Open as a whole: the set-up, then "Start handling" on the frames in
    the order the readers take them up, until the upstream source
    ends. *)
Definition Open (p : ServerStruct) (st : CaptureState) (frames : list Frame)
    : ServerStruct * list SetupOutput * list Output * option error * CaptureState :=
  let '(p, out, e, st) := Open_setup p st in
  match e, ready p with
  | None, Some server =>
      let '(server, handled) := run server frames in
      (struct_of server, out, handled, None, st)
  | _, _ => (p, out, [], e, st)
  end.

(** func (p *Server) Close() *)
Definition Close (p : ServerStruct) (st : CaptureState)
    : list SetupOutput * CaptureState :=
  let st := foldl (fun st handle => Handle_Close handle st) st (s_listenHandles p) in
  let calls := (fun handle => Call_Close (Some handle)) <$> s_listenHandles p in
  match s_upHandle p with
  | Some handle => (calls ++ [Call_Close (Some handle)], Handle_Close handle st)
  | None => (calls ++ [Call_Close None], st)
  end.

(** The handles that the calls of OpenLive in a trace returned, and the
    handles that the calls of Close in it closed. *)
Definition openedHandles (out : list SetupOutput) : list Handle :=
  omap (fun o => match o with
                 | Call_OpenLive _ _ _ _ (Ok handle) => Some handle
                 | _ => None
                 end) out.

Definition closedHandles (out : list SetupOutput) : list Handle :=
  omap (fun o => match o with
                 | Call_Close (Some handle) => Some handle
                 | _ => None
                 end) out.

(** The filters that a trace installed, with their handles. *)
Definition installedFilters (out : list SetupOutput) : list (Handle * string) :=
  omap (fun o => match o with
                 | Call_SetBPFFilter handle filter None => Some (handle, filter)
                 | _ => None
                 end) out.

End Setup.

(** The devices that a trace asked the driver to open, with the
    arguments of the calls. *)
Definition openCalls (out : list SetupOutput) : list (string * Z * bool * Timeout) :=
  omap (fun o => match o with
                 | Call_OpenLive device snaplen promisc timeout _ =>
                     Some (device, snaplen, promisc, timeout)
                 | _ => None
                 end) out.

(** ** A driver to run Open and Close on

    Modelled from the spec: the capture driver is an external
    collaborator ("open_live(device_name, snaplen, promiscuous,
    timeout) -> handle", "set_bpf(handle, expression)",
    "close(handle)").  This one numbers its handles from 0, keeps the
    list of the handles that are open, and cannot open the devices
    whose names are in [down] or install a filter on the handles in
    [deaf]. *)

Module Driver.

Record State := {
  next : Handle;
  opened : list Handle;
  down : list string;
  deaf : list Handle
}.

Definition OpenLive (device : string) (snaplen : Z) (promisc : bool)
    (timeout : Timeout) (st : State) : result Handle * State :=
  if bool_decide (device ∈ down st) then (Err (ExternalError 1), st)
  else (Ok (next st),
        {| next := S (next st); opened := opened st ++ [next st];
           down := down st; deaf := deaf st |}).

Definition SetBPFFilter (handle : Handle) (filter : string) (st : State)
    : option error * State :=
  if bool_decide (handle ∈ deaf st) then (Some (ExternalError 2), st)
  else (None, st).

Definition Close (handle : Handle) (st : State) : State :=
  {| next := next st;
     opened := filter (fun h => h ≠ handle) (opened st);
     down := down st; deaf := deaf st |}.

Definition hex2 (b : Z) : string :=
  Wire.hex_digit (b / 16 mod 16) +:+ Wire.hex_digit (b mod 16).

(** net.HardwareAddr.String *)
Definition HardwareAddr_String (a : HardwareAddr) : string :=
  String.concat ":" (hex2 <$> a).

Definition capture : Capture :=
  Build_Capture State OpenLive SetBPFFilter Close HardwareAddr_String.

Definition fresh (down : list string) (deaf : list Handle) : State :=
  {| next := 0%nat; opened := []; down := down; deaf := deaf |}.

End Driver.

(** ** Starting the server of the scenarios *)

Module Startup.

Import Scenario.

Definition loopDev : Device :=
  {| dev_Name := "lo"; dev_FriendlyName := "lo";
     dev_IPAddrs := [[127; 0; 0; 1]; [0; 0; 0; 0; 0; 0; 0; 0; 0; 0; 0; 0; 0; 0; 0; 1]];
     dev_HardwareAddr := []; dev_IsLoop := true |}.

(** The struct before Open: two listen devices, tables left over from
    an earlier use. *)
Definition settings : ServerStruct :=
  {| s_ListenPort := 8080; s_ListenDevs := [listenDev; loopDev];
     s_UpDev := Some upDev; s_GatewayDev := Some gatewayDev;
     s_listenHandles := []; s_upHandle := None;
     s_seqs := {[client := 7]}; s_acks := {[client := 9]}; s_id := 5;
     s_port := 0; s_portDist := ∅; s_nat := ∅ |}.

Definition without_listen : ServerStruct :=
  {| s_ListenPort := 8080; s_ListenDevs := [];
     s_UpDev := None; s_GatewayDev := None;
     s_listenHandles := []; s_upHandle := None;
     s_seqs := ∅; s_acks := ∅; s_id := 5;
     s_port := 0; s_portDist := ∅; s_nat := ∅ |}.

(** A layer codec like [Wire.env] on a driver that refuses every
    write. *)
Definition refusing : Externals :=
  Build_Externals Wire.Packet Wire.parsePacket Wire.parseEncappedPacket
    Wire.Metadata_Length Wire.SrcAddr Wire.DstAddr Wire.Contents Wire.Payload
    Wire.createTCPLayerSYNACK Wire.createTransportLayerTCP
    Wire.createNetworkLayerIPv4 Wire.createNetworkLayerIPv6
    Wire.createLinkLayerLoopback Wire.createLinkLayerEthernet Wire.serialize
    Wire.IPAddr_IP Wire.IPv4Addr_IP Wire.IPv6Addr_IP Wire.String Wire.To4
    Wire.ParseIP (fun _ _ => Some (ExternalError 5)).

(** A SYN and three data segments of the client, one of them with a
    payload that is no IP packet, and two replies on the upstream side
    in between. *)
Definition mixed : list (Frame (H := Wire.env)) :=
  [FromListen (H := Wire.env) (syn 42) listenHandle;
   FromListen (H := Wire.env) (data 43 (innerUDP 64 55555)) listenHandle;
   FromUpstream (H := Wire.env) (reply 49152);
   FromListen (H := Wire.env) (data 83 garbage) listenHandle;
   FromUpstream (H := Wire.env) (reply 55555);
   FromListen (H := Wire.env) (data 86 (innerUDP 64 55555)) listenHandle].

End Startup.

(** ** Other set-ups of the server of the scenarios

    The same server behind a gateway whose hardware address is not
    known, with a loopback upstream device, and with an upstream device
    that has an IPv4 address only; a carrier over IPv6, and an inner
    IPv4+TCP packet. *)

Module Variants.

Import Scenario.

Definition with_devices (upstream gateway : Device) : Server :=
  Open_init
    {| ListenPort := 8080; ListenDevs := [listenDev]; UpDev := upstream;
       GatewayDev := gateway; listenHandles := [listenHandle];
       upHandle := upstreamHandle; seqs := ∅; acks := ∅; id := 0; port := 0;
       portDist := ∅; nat := ∅ |}.

Definition unknownGateway : Device :=
  {| dev_Name := "eth1"; dev_FriendlyName := "gateway"; dev_IPAddrs := [gatewayIP];
     dev_HardwareAddr := []; dev_IsLoop := false |}.


Definition unresolved : Server := with_devices upDev unknownGateway.
Definition looped : Server := with_devices Startup.loopDev Startup.loopDev.

Definition clientIP6 : IP := [253; 0; 0; 0; 0; 0; 0; 0; 0; 0; 0; 0; 0; 0; 0; 2].
Definition serverIP6 : IP := [253; 0; 0; 0; 0; 0; 0; 0; 0; 0; 0; 0; 0; 0; 0; 1].

(** A SYN of the client at [fd00::2]:40000 to the listen port at
    [fd00::1]:8080. *)
Definition syn6 (seq : Z) : Wire.Packet :=
  {| Wire.pkt_LinkType := LayerTypeEthernet;
     Wire.pkt_Data :=
       bytes_of
         (Wire.serialize
            (EthernetLayer {| eth_SrcMAC := clientMAC; eth_DstMAC := serverMAC;
                              eth_EthernetType := 34525 |})
            (IPv6Layer {| ip6_NextHeader := 6; ip6_HopLimit := 64;
                          ip6_SrcIP := clientIP6; ip6_DstIP := serverIP6 |})
            (TCPLayer {| tcp_SrcPort := 40000; tcp_DstPort := 8080;
                         tcp_Seq := seq; tcp_Ack := 0; tcp_DataOffset := 5;
                         tcp_FIN := false; tcp_SYN := true; tcp_RST := false;
                         tcp_PSH := false; tcp_ACK := false;
                         tcp_Window := 65535 |})
            []) |}.

Definition client6 : string := "fd00::2:40000".



End Variants.

(** * Properties *)

Section Properties.

Context `{Externals}.

Implicit Types (p : Server) (packet : Packet) (handle : Handle).
Implicit Types (indicator encappedIndicator : packetIndicator).

(** ** What each block of a handler leaves alone *)

Ltac break_match :=
  match goal with
  | |- context [match ?x with _ => _ end] => destruct x eqn:?
  end.

Lemma redirectInbound_state p packet handle indicator encappedIndicator q d :
  let p' := (redirectInbound p packet handle indicator encappedIndicator q d).1 in
  seqs p' = seqs p ∧ acks p' = acks p ∧ id p' = id p ∧ port p' = port p
  ∧ portDist p' = portDist p ∧ upHandle p' = upHandle p.
Proof.
  unfold redirectInbound. repeat break_match; simpl; auto 10.
Qed.

Lemma handshake_state p indicator :
  let p' := (handshake p indicator).1.1 in
  port p' = port p ∧ portDist p' = portDist p ∧ nat p' = nat p.
Proof.
  unfold handshake. repeat break_match; simpl; auto.
Qed.

Lemma distributePort_state p q :
  let p' := (distributePort p q).2 in
  seqs p' = seqs p ∧ acks p' = acks p ∧ id p' = id p
  ∧ portDist p' = portDist p ∧ nat p' = nat p.
Proof.
  unfold distributePort. destruct (portDist p !! q); simpl; auto.
Qed.

(** With the zero value for newLinkLayerType, the link-layer switch of
    handleUpstream takes its default case whatever came before. *)
Lemma redirectOutbound_stops p packet indicator ps :
  ∃ e, redirectOutbound p packet indicator ps = (p, [Println e]).
Proof.
  unfold redirectOutbound.
  destruct (is_nil _); [eauto |].
  destruct (createCarrierNetworkLayer _ _ _ _ _ _); simpl; eauto.
Qed.

Lemma handleUpstream_shape p packet :
  (handleUpstream p packet).1 = p
  ∧ Forall (fun o => is_write o = false) (handleUpstream p packet).2.
Proof.
  unfold handleUpstream.
  destruct (parsePacket packet) as [indicator | err]; simpl; [| auto].
  destruct (nat p !! reverseKey indicator) as [ps |]; simpl; [| auto].
  destruct (modifyTransportLayer _ _ _) as [tl | t |]; simpl; [| auto | auto].
  destruct (modifyNetworkLayer _ _ _) as [nl | t |]; simpl; [| | auto].
  - destruct (redirectOutbound_stops p packet (ind_set_layers indicator nl tl) ps)
      as [e ->]; simpl; auto.
  - destruct (redirectOutbound_stops p packet
                (ind_set_layers indicator (ind_NetworkLayer indicator) tl) ps)
      as [e ->]; simpl; auto.
Qed.

Lemma handleListen_portDist p packet handle :
  portDist (handleListen p packet handle).1 = portDist p.
Proof.
  unfold handleListen.
  destruct (parsePacket packet) as [indicator | err]; simpl; [| done].
  destruct (ind_SYN indicator).
  - pose proof (handshake_state p indicator) as (_ & Hd & _).
    destruct (handshake p indicator) as [[p' out] [e |]]; simpl in *; done.
  - destruct (ind_ApplicationLayer indicator) as [contents |]; simpl; [| done].
    destruct (parseEncappedPacket contents) as [ei | err]; simpl; [| done].
    match goal with
    | |- context [distributePort ?s ?q] =>
        pose proof (distributePort_state s q) as (_ & _ & _ & Hd & _);
        destruct (distributePort s q) as [d p1]
    end.
    simpl in Hd.
    pose proof (redirectInbound_state p1 packet handle indicator ei
                  (flowKey indicator ei) d) as (_ & _ & _ & _ & Hd' & _).
    simpl in Hd'. by rewrite Hd', Hd.
Qed.

(** ** The egress handler *)

(** C1 (fails on the code): for an upstream frame whose reverse-NAT
    lookup succeeds, the egress handler is to build the carrier link
    layer as the ingress path does, serialize, and write to the handle
    of the NAT entry.  In the code the link-layer kind is never
    assigned in handleUpstream, so the switch takes its default case:
    whatever the frame and the state, handleUpstream writes nothing to
    any handle and leaves the server as it was. *)
Theorem handleUpstream_never_writes p packet :
  (handleUpstream p packet).1 = p
  ∧ ∀ handle data, WritePacketData handle data ∉ (handleUpstream p packet).2.
Proof.
  destruct (handleUpstream_shape p packet) as [Hp Hout].
  split; [exact Hp |].
  intros handle data Hin.
  rewrite Forall_forall in Hout. by apply Hout in Hin.
Qed.

(** C8: an upstream frame whose reverse key is absent from the NAT
    table is dropped: nothing is written, nothing is printed, and the
    whole server state (seqs, acks, portDist, nat, the IPv4 id and the
    port cursor) is as before. *)
Theorem handleUpstream_miss p packet indicator :
  parsePacket packet = Ok indicator →
  nat p !! reverseKey indicator = None →
  handleUpstream p packet = (p, []).
Proof.
  intros Hparse Hmiss. unfold handleUpstream. by rewrite Hparse, Hmiss.
Qed.

(** ** The ingress handler *)

(** C2 (fails on the code): after a data segment is processed,
    port_dist[q] is to hold a port of [49152, 65535] for its inner flow
    key q.  In the code handleListen reads portDist and never writes
    it: the table after any frame is the table before. *)
Theorem handleListen_never_fills_portDist p packet handle :
  portDist (handleListen p packet handle).1 = portDist p.
Proof. apply handleListen_portDist. Qed.

(** C9: for a carrier segment without SYN and with an application
    payload, acks[client] is advanced by the payload length (modulo
    2^32) before the payload is parsed as an inner packet; when that
    parse fails, the frame is dropped with the error printed, and the
    server is left with the advanced ack. *)
Theorem handleListen_ack_before_parse p packet handle indicator contents :
  parsePacket packet = Ok indicator →
  ind_SYN indicator = false →
  ind_ApplicationLayer indicator = Some contents →
  acks (handleListen p packet handle).1
  = <[SrcAddr indicator :=
        uint32 (mapget (acks p) (SrcAddr indicator) + Z.of_nat (length contents))]>
      (acks p)
  ∧ ∀ err, parseEncappedPacket contents = Err err →
      handleListen p packet handle
      = (advanceAck p indicator contents, [Println (Errorf "handle listen" err)]).
Proof.
  intros Hparse Hsyn Happ. unfold handleListen. rewrite Hparse, Hsyn, Happ.
  split.
  - destruct (parseEncappedPacket contents) as [ei | err]; simpl; [| done].
    match goal with
    | |- context [distributePort ?s ?q] =>
        pose proof (distributePort_state s q) as (_ & Ha & _);
        destruct (distributePort s q) as [d p1]
    end.
    simpl in Ha.
    pose proof (redirectInbound_state p1 packet handle indicator ei
                  (flowKey indicator ei) d) as (_ & Ha' & _).
    simpl in Ha'. by rewrite Ha', Ha.
  - intros err ->. reflexivity.
Qed.

(** ** The handshake *)

Lemma mapget_insert (m : gmap string Z) (k : string) (v : Z) :
  mapget (<[k := v]> m) k = v.
Proof. unfold mapget. by rewrite lookup_insert_eq. Qed.

Lemma handshake_counters p indicator :
  let p' := (handshake p indicator).1.1 in
  seqs p' = <[SrcAddr indicator := 0]> (seqs p)
  ∧ acks p' = <[SrcAddr indicator := uint32 (ind_Seq indicator + 1)]> (acks p).
Proof.
  unfold handshake. repeat break_match; simpl; auto.
Qed.

Lemma handleListen_SYN_counters p packet handle indicator :
  parsePacket packet = Ok indicator →
  ind_SYN indicator = true →
  let p' := (handleListen p packet handle).1 in
  seqs p' = <[SrcAddr indicator := 0]> (seqs p)
  ∧ acks p' = <[SrcAddr indicator := uint32 (ind_Seq indicator + 1)]> (acks p).
Proof.
  intros Hparse Hsyn. unfold handleListen. rewrite Hparse, Hsyn.
  pose proof (handshake_counters p indicator) as Hc.
  destruct (handshake p indicator) as [[p' out] [e |]]; exact Hc.
Qed.

Lemma handshake_writes p indicator newNetworkLayer newLinkLayer data :
  let synack :=
    createTCPLayerSYNACK (ListenPort p) (ind_SrcPort indicator) 0
      (uint32 (ind_Seq indicator + 1)) in
  createCarrierNetworkLayer
    (if is_nil (IP_To4 (ind_DstIP indicator)) then LayerTypeIPv6 else LayerTypeIPv4)
    (ind_DstIP indicator) (ind_SrcIP indicator) (id p) 128 synack
  = Ok newNetworkLayer →
  createNewLinkLayer p (decideLinkLayerType p) newNetworkLayer = Ok newLinkLayer →
  serialize newLinkLayer newNetworkLayer (TCPLayer synack) [] = Ok data →
  (handshake p indicator).1.2 = [WritePacketData (upHandle p) data].
Proof.
  intros synack Hnet Hlink Hser. unfold handshake. simpl.
  rewrite !mapget_insert. fold synack. rewrite Hnet.
  change (createNewLinkLayer _ _ newNetworkLayer)
    with (createNewLinkLayer p (decideLinkLayerType p) newNetworkLayer).
  rewrite Hlink, Hser.
  destruct (Handle_WritePacketData (upHandle p) data); reflexivity.
Qed.

(** The two switches of handshake, read off the builders of the codec:
    the network layer comes from the IPv4 builder when the destination
    of the carrier has a four-byte form and from the IPv6 builder
    otherwise, the link layer is the loopback one when the upstream
    device is loopback and the Ethernet one otherwise. *)
Lemma handshake_layers p indicator (synack : TCP) newNetworkLayer newLinkLayer :
  createCarrierNetworkLayer
    (if is_nil (IP_To4 (ind_DstIP indicator)) then LayerTypeIPv6 else LayerTypeIPv4)
    (ind_DstIP indicator) (ind_SrcIP indicator) (id p) 128 synack
  = Ok newNetworkLayer
  ∧ createNewLinkLayer p (decideLinkLayerType p) newNetworkLayer = Ok newLinkLayer
  ↔ (if is_nil (IP_To4 (ind_DstIP indicator)) then
       ∃ ipv6,
         createNetworkLayerIPv6 (ind_DstIP indicator) (ind_SrcIP indicator)
           (TCPLayer synack) = Ok ipv6
         ∧ newNetworkLayer = IPv6Layer ipv6
     else
       ∃ ipv4,
         createNetworkLayerIPv4 (ind_DstIP indicator) (ind_SrcIP indicator)
           (id p) 128 (TCPLayer synack) = Ok ipv4
         ∧ newNetworkLayer = IPv4Layer ipv4)
    ∧ (if dev_IsLoop (UpDev p) then
         newLinkLayer = LoopbackLayer createLinkLayerLoopback
       else
         ∃ eth,
           createLinkLayerEthernet (dev_HardwareAddr (UpDev p))
             (dev_HardwareAddr (GatewayDev p)) newNetworkLayer = Ok eth
           ∧ newLinkLayer = EthernetLayer eth).
Proof.
  unfold decideLinkLayerType, createNewLinkLayer, createCarrierNetworkLayer.
  destruct (is_nil (IP_To4 (ind_DstIP indicator))), (dev_IsLoop (UpDev p)).
  - destruct (createNetworkLayerIPv6 _ _ _) as [ipv6 | e]; simpl; split.
    + intros [[= <-] [= <-]]. eauto 10.
    + intros [(? & [= <-] & ->) ->]. done.
    + by intros [? _].
    + by intros [(? & ? & _) _].
  - destruct (createNetworkLayerIPv6 _ _ _) as [ipv6 | e]; simpl; split.
    + intros [[= <-] Hl].
      destruct (createLinkLayerEthernet _ _ _) as [eth | e]; simplify_eq/=. eauto 10.
    + intros [(? & [= <-] & ->) (eth & -> & ->)]. done.
    + by intros [? _].
    + by intros [(? & ? & _) _].
  - destruct (createNetworkLayerIPv4 _ _ _ _ _) as [ipv4 | e]; simpl; split.
    + intros [[= <-] [= <-]]. eauto 10.
    + intros [(? & [= <-] & ->) ->]. done.
    + by intros [? _].
    + by intros [(? & ? & _) _].
  - destruct (createNetworkLayerIPv4 _ _ _ _ _) as [ipv4 | e]; simpl; split.
    + intros [[= <-] Hl].
      destruct (createLinkLayerEthernet _ _ _) as [eth | e]; simplify_eq/=. eauto 10.
    + intros [(? & [= <-] & ->) (eth & -> & ->)]. done.
    + by intros [? _].
    + by intros [(? & ? & _) _].
Qed.

(** A frame that handshake writes is the serialization of layers that
    its two switches built. *)
Lemma handshake_written p indicator h data :
  let synack :=
    createTCPLayerSYNACK (ListenPort p) (ind_SrcPort indicator) 0
      (uint32 (ind_Seq indicator + 1)) in
  WritePacketData h data ∈ (handshake p indicator).1.2 →
  h = upHandle p
  ∧ ∃ newNetworkLayer newLinkLayer,
      (createCarrierNetworkLayer
         (if is_nil (IP_To4 (ind_DstIP indicator)) then LayerTypeIPv6
          else LayerTypeIPv4)
         (ind_DstIP indicator) (ind_SrcIP indicator) (id p) 128 synack
       = Ok newNetworkLayer
       ∧ createNewLinkLayer p (decideLinkLayerType p) newNetworkLayer
         = Ok newLinkLayer)
      ∧ serialize newLinkLayer newNetworkLayer (TCPLayer synack) [] = Ok data.
Proof.
  intros synack. unfold handshake. simpl. rewrite !mapget_insert. fold synack.
  destruct (createCarrierNetworkLayer _ _ _ _ _ _) as [nl | e] eqn:Hnet; simpl;
    [| by intros ?%elem_of_nil].
  change (createNewLinkLayer _ _ nl)
    with (createNewLinkLayer p (decideLinkLayerType p) nl).
  destruct (createNewLinkLayer p _ nl) as [ll | e] eqn:Hlink; simpl;
    [| by intros ?%elem_of_nil].
  destruct (serialize ll nl _ []) as [d | e] eqn:Hser; simpl;
    [| by intros ?%elem_of_nil].
  destruct (Handle_WritePacketData (upHandle p) d); simpl;
    intros [= -> ->]%list_elem_of_singleton; eauto 10.
Qed.

(** C4 (as amended): for a carrier frame with the SYN flag set, arriving
    from the client with sequence number s, the ingress handler sets
    seqs[client] = 0 and acks[client] = s + 1 (in 32 bits) whether or
    not it sends anything.  When the codec builds the network layer
    around the SYN+ACK segment (the IPv4 builder, with the id counter
    and TTL 128, for a carrier destination with a four-byte form, the
    IPv6 builder otherwise) and the link layer (loopback for a loopback
    upstream device, Ethernet from the upstream to the gateway hardware
    address otherwise) and serializes them, the handler hands that
    serialization to the upstream handle, the segment being the SYN+ACK
    built from source port = listen port, destination port = client
    port, seq 0 and ack s + 1.  It writes nothing else, and nothing at
    all when one of these steps returns an error. *)
Theorem handleListen_SYN_handshake p packet handle indicator :
  parsePacket packet = Ok indicator →
  ind_SYN indicator = true →
  let client := SrcAddr indicator in
  let ack := uint32 (ind_Seq indicator + 1) in
  let synack :=
    TCPLayer (createTCPLayerSYNACK (ListenPort p) (ind_SrcPort indicator) 0 ack) in
  let built (newNetworkLayer : NetworkLayer) (newLinkLayer : LinkLayer) :=
    (if is_nil (IP_To4 (ind_DstIP indicator)) then
       ∃ ipv6,
         createNetworkLayerIPv6 (ind_DstIP indicator) (ind_SrcIP indicator) synack
         = Ok ipv6
         ∧ newNetworkLayer = IPv6Layer ipv6
     else
       ∃ ipv4,
         createNetworkLayerIPv4 (ind_DstIP indicator) (ind_SrcIP indicator)
           (id p) 128 synack = Ok ipv4
         ∧ newNetworkLayer = IPv4Layer ipv4)
    ∧ (if dev_IsLoop (UpDev p) then
         newLinkLayer = LoopbackLayer createLinkLayerLoopback
       else
         ∃ eth,
           createLinkLayerEthernet (dev_HardwareAddr (UpDev p))
             (dev_HardwareAddr (GatewayDev p)) newNetworkLayer = Ok eth
           ∧ newLinkLayer = EthernetLayer eth) in
  let r := handleListen p packet handle in
  seqs r.1 !! client = Some 0
  ∧ acks r.1 !! client = Some ack
  ∧ (∀ newNetworkLayer newLinkLayer data,
       built newNetworkLayer newLinkLayer →
       serialize newLinkLayer newNetworkLayer synack [] = Ok data →
       ∃ printed,
         r.2 = WritePacketData (upHandle p) data :: printed
         ∧ Forall (fun o => is_write o = false) printed)
  ∧ (∀ h data,
       WritePacketData h data ∈ r.2 →
       h = upHandle p
       ∧ ∃ newNetworkLayer newLinkLayer,
           built newNetworkLayer newLinkLayer
           ∧ serialize newLinkLayer newNetworkLayer synack [] = Ok data).
Proof.
  intros Hparse Hsyn client ack synack built r.
  destruct (handleListen_SYN_counters p packet handle indicator Hparse Hsyn)
    as [Hs Ha].
  split; [| split; [| split]].
  - subst r. rewrite Hs. apply lookup_insert_eq.
  - subst r. rewrite Ha. apply lookup_insert_eq.
  - intros nl ll data Hbuilt Hser.
    apply handshake_layers in Hbuilt as [Hnet Hlink].
    pose proof (handshake_writes p indicator nl ll data Hnet Hlink Hser) as Hout.
    subst r. unfold handleListen. rewrite Hparse, Hsyn.
    destruct (handshake p indicator) as [[p1 out] [e |]]; simpl in *; subst out.
    + eexists. split; [reflexivity |]. repeat constructor.
    + eexists. split; [reflexivity |]. repeat constructor.
  - intros h data Hin.
    assert (Hw : WritePacketData h data ∈ (handshake p indicator).1.2).
    { subst r. unfold handleListen in Hin. rewrite Hparse, Hsyn in Hin.
      destruct (handshake p indicator) as [[p1 out] [e |]]; simpl in *;
        apply elem_of_app in Hin as [Hin | Hin%list_elem_of_singleton];
        done. }
    apply handshake_written in Hw as (-> & nl & ll & Hl & Hser).
    split; [done |]. exists nl, ll. split; [| exact Hser].
    by apply handshake_layers.
Qed.

(** ** The data path of the ingress handler *)

Lemma handleListen_data p packet handle indicator encappedIndicator contents :
  innerFlow packet = Some (indicator, encappedIndicator, contents) →
  handleListen p packet handle
  = redirectInbound
      (distributePort (advanceAck p indicator contents)
         (flowKey indicator encappedIndicator)).2
      packet handle indicator encappedIndicator
      (flowKey indicator encappedIndicator)
      (distributePort (advanceAck p indicator contents)
         (flowKey indicator encappedIndicator)).1.
Proof.
  unfold innerFlow, handleListen.
  destruct (parsePacket packet) as [i | ?]; [| done].
  destruct (ind_SYN i); [done |].
  destruct (ind_ApplicationLayer i) as [c |]; [| done].
  destruct (parseEncappedPacket c) as [ei | ?]; [| done].
  intros [= -> -> ->]. unfold advanceAck.
  by destruct (distributePort _ _).
Qed.

Lemma distributePort_env p q :
  let p' := (distributePort p q).2 in
  UpDev p' = UpDev p ∧ GatewayDev p' = GatewayDev p ∧ upHandle p' = upHandle p.
Proof.
  unfold distributePort. destruct (portDist p !! q); simpl; auto.
Qed.

Lemma createNewNetworkLayer_env p p' encappedIndicator transportLayer :
  UpDev p' = UpDev p →
  createNewNetworkLayer p' encappedIndicator transportLayer
  = createNewNetworkLayer p encappedIndicator transportLayer.
Proof. unfold createNewNetworkLayer. by intros ->. Qed.

Lemma createNewLinkLayer_env p p' t newNetworkLayer :
  UpDev p' = UpDev p → GatewayDev p' = GatewayDev p →
  createNewLinkLayer p' t newNetworkLayer = createNewLinkLayer p t newNetworkLayer.
Proof. unfold createNewLinkLayer. by intros -> ->. Qed.

(** What redirectInbound does once the three layers are there. *)
Lemma redirectInbound_built p packet handle indicator encappedIndicator q d
    transportLayer newNetworkLayer newLinkLayer :
  modifyTransportLayer (ind_TransportLayerType encappedIndicator)
    (ind_TransportLayer encappedIndicator) d = Asserted transportLayer →
  createNewNetworkLayer p encappedIndicator transportLayer = Ok newNetworkLayer →
  createNewLinkLayer p (decideLinkLayerType p) newNetworkLayer = Ok newLinkLayer →
  let r := redirectInbound p packet handle indicator encappedIndicator q d in
  nat r.1 = <[natKey p encappedIndicator := natSrc indicator q handle]> (nat p)
  ∧ ∀ data,
      serialize newLinkLayer newNetworkLayer transportLayer
        (Payload (ind_set_layers encappedIndicator
                    (ind_NetworkLayer encappedIndicator) transportLayer))
      = Ok data →
      ∃ printed, r.2 = WritePacketData (upHandle p) data :: printed.
Proof.
  intros Hmod Hnet Hlink. unfold redirectInbound.
  rewrite Hmod, Hnet, Hlink. simpl. split.
  - by destruct (serialize _ _ _ _).
  - intros data ->. eauto.
Qed.

Lemma handleListen_built p packet handle indicator encappedIndicator contents
    transportLayer newNetworkLayer newLinkLayer :
  innerFlow packet = Some (indicator, encappedIndicator, contents) →
  modifyTransportLayer (ind_TransportLayerType encappedIndicator)
    (ind_TransportLayer encappedIndicator)
    (distributePort (advanceAck p indicator contents)
       (flowKey indicator encappedIndicator)).1
  = Asserted transportLayer →
  createNewNetworkLayer p encappedIndicator transportLayer = Ok newNetworkLayer →
  createNewLinkLayer p (decideLinkLayerType p) newNetworkLayer = Ok newLinkLayer →
  nat (handleListen p packet handle).1
  = <[natKey p encappedIndicator :=
        natSrc indicator (flowKey indicator encappedIndicator) handle]> (nat p)
  ∧ ∀ data,
      serialize newLinkLayer newNetworkLayer transportLayer
        (Payload (ind_set_layers encappedIndicator
                    (ind_NetworkLayer encappedIndicator) transportLayer))
      = Ok data →
      ∃ printed,
        (handleListen p packet handle).2
        = WritePacketData (upHandle p) data :: printed.
Proof.
  intros Hflow Hmod Hnet Hlink.
  rewrite (handleListen_data _ _ _ _ _ _ Hflow).
  set (a := advanceAck p indicator contents) in *.
  set (q := flowKey indicator encappedIndicator) in *.
  destruct (distributePort_env a q) as (Hup & Hgw & Hh).
  destruct (distributePort_state a q) as (_ & _ & _ & _ & Hn).
  simpl in Hup, Hgw, Hh, Hn.
  set (p1 := (distributePort a q).2) in *.
  assert (Hup' : UpDev p1 = UpDev p) by (rewrite Hup; reflexivity).
  assert (Hgw' : GatewayDev p1 = GatewayDev p) by (rewrite Hgw; reflexivity).
  assert (Hnet1 : createNewNetworkLayer p1 encappedIndicator transportLayer
                  = Ok newNetworkLayer)
    by (rewrite (createNewNetworkLayer_env p p1); done).
  assert (Hlink1 : createNewLinkLayer p1 (decideLinkLayerType p1) newNetworkLayer
                   = Ok newLinkLayer).
  { rewrite (createNewLinkLayer_env p p1) by done.
    unfold decideLinkLayerType in *. by rewrite Hup'. }
  destruct (redirectInbound_built p1 packet handle indicator encappedIndicator q _
              _ _ _ Hmod Hnet1 Hlink1) as [Hnat Hout].
  split.
  - rewrite Hnat, Hn. unfold natKey. rewrite Hup'. reflexivity.
  - intros data Hser. rewrite Hh in Hout. exact (Hout data Hser).
Qed.







(** C6 (as amended): on the data path for an inner IPv4 packet the new
    network layer is built with the inner TTL minus one in 8 bits, and
    the handler has no TTL check: whatever the inner TTL, once the
    layers are built and serialized the frame is written to the
    upstream handle.  For an inner TTL of 1 to 255 the TTL passed on is
    one less; for an inner TTL of 0 it is 255. *)
Theorem handleListen_ttl p packet handle indicator encappedIndicator contents
    transportLayer ipv4 newLinkLayer data :
  innerFlow packet = Some (indicator, encappedIndicator, contents) →
  ind_NetworkLayerType encappedIndicator = LayerTypeIPv4 →
  modifyTransportLayer (ind_TransportLayerType encappedIndicator)
    (ind_TransportLayer encappedIndicator)
    (distributePort (advanceAck p indicator contents)
       (flowKey indicator encappedIndicator)).1
  = Asserted transportLayer →
  createNetworkLayerIPv4 (IPv4Addr_IP (UpDev p)) (ind_DstIP encappedIndicator)
    (ind_Id encappedIndicator) (uint8 (ind_TTL encappedIndicator - 1))
    transportLayer
  = Ok ipv4 →
  createNewLinkLayer p (decideLinkLayerType p) (IPv4Layer ipv4) = Ok newLinkLayer →
  serialize newLinkLayer (IPv4Layer ipv4) transportLayer
    (Payload (ind_set_layers encappedIndicator
                (ind_NetworkLayer encappedIndicator) transportLayer))
  = Ok data →
  (∃ printed,
     (handleListen p packet handle).2 = WritePacketData (upHandle p) data :: printed)
  ∧ (1 ≤ ind_TTL encappedIndicator ≤ 255 →
     uint8 (ind_TTL encappedIndicator - 1) = ind_TTL encappedIndicator - 1)
  ∧ (ind_TTL encappedIndicator = 0 → uint8 (ind_TTL encappedIndicator - 1) = 255).
Proof.
  intros Hflow H4 Hmod Hip Hlink Hser.
  assert (Hnet : createNewNetworkLayer p encappedIndicator transportLayer
                 = Ok (IPv4Layer ipv4)).
  { unfold createNewNetworkLayer. by rewrite H4, Hip. }
  destruct (handleListen_built p packet handle _ _ _ _ _ _ Hflow Hmod Hnet Hlink)
    as [_ Hout].
  split; [exact (Hout data Hser) |].
  unfold uint8. split.
  - intros Hr. apply Z.mod_small. lia.
  - intros ->. reflexivity.
Qed.

(** ** Port allocation over a run of data segments *)

Lemma distPort_value p :
  0 ≤ port p → distPort p = 49152 + port p mod 16384.
Proof.
  intros Hp. unfold distPort, uint16. apply Z.mod_small.
  pose proof (Z.mod_pos_bound (port p) 16384). lia.
Qed.

(** A port handed out by distPort lies in the ephemeral range. *)
Lemma distPort_range p : 49152 ≤ distPort p ≤ 65535.
Proof.
  unfold distPort, uint16.
  pose proof (Z.mod_pos_bound (port p) 16384).
  rewrite Z.mod_small; lia.
Qed.

Lemma handleListen_data_port p packet handle :
  is_Some (innerFlow packet) →
  portDist p = ∅ →
  port (handleListen p packet handle).1 = uint16 (port p + 1).
Proof.
  intros [[[indicator ei] contents] Hflow] Hempty.
  rewrite (handleListen_data _ _ _ _ _ _ Hflow).
  destruct (redirectInbound_state
              (distributePort (advanceAck p indicator contents)
                 (flowKey indicator ei)).2
              packet handle indicator ei (flowKey indicator ei)
              (distributePort (advanceAck p indicator contents)
                 (flowKey indicator ei)).1) as (_ & _ & _ & -> & _).
  unfold distributePort. simpl. rewrite Hempty, lookup_empty. reflexivity.
Qed.

Lemma uint16_succ (n : Z) : uint16 (uint16 n + 1) = uint16 (n + 1).
Proof. unfold uint16. apply Zplus_mod_idemp_l. Qed.

Lemma run_data_port (packets : list (Packet * Handle)) p (n : Z) :
  Forall (fun ph => is_Some (innerFlow ph.1)) packets →
  portDist p = ∅ →
  port p = uint16 n →
  port (run p (listenFrames packets)).1 = uint16 (n + Z.of_nat (length packets))
  ∧ portDist (run p (listenFrames packets)).1 = ∅.
Proof.
  intros Hall. revert p n.
  induction Hall as [| [packet handle] packets Hflow _ IH]; intros p n Hempty Hport.
  - simpl. by rewrite Z.add_0_r.
  - simpl in *.
    pose proof (handleListen_data_port p packet handle Hflow Hempty) as Hp.
    pose proof (handleListen_portDist p packet handle) as Hd.
    destruct (handleListen p packet handle) as [p1 out]. simpl in Hp, Hd.
    rewrite Hport, uint16_succ in Hp. rewrite Hempty in Hd.
    destruct (IH p1 (n + 1) Hd Hp) as [IHp IHd].
    destruct (run p1 (listenFrames packets)) as [p2 out']. simpl in *.
    split; [| done]. rewrite IHp. f_equal. lia.
Qed.

(** C7: port allocation is deterministic.  Starting from port cursor 0
    (and the empty forward table that Open makes), when N data segments
    carrying pairwise distinct inner flow keys are processed in order,
    the segment at position k (counting from 0) is given the
    server-side source port 49152 + (k mod 16384): "Distribute port"
    yields that port and moves the cursor to k + 1 in 16 bits, and
    handleListen carries on from "Modify transport layer" with it. *)
Theorem port_allocation_deterministic (packets : list (Packet * Handle)) p0 :
  port p0 = 0 →
  portDist p0 = ∅ →
  Forall (fun ph => is_Some (innerFlow ph.1)) packets →
  NoDup (omap (fun ph => innerFlowKey ph.1) packets) →
  ∀ (k : Datatypes.nat) packet handle indicator encappedIndicator contents,
    packets !! k = Some (packet, handle) →
    innerFlow packet = Some (indicator, encappedIndicator, contents) →
    let p := (run p0 (listenFrames (take k packets))).1 in
    distributePort (advanceAck p indicator contents)
      (flowKey indicator encappedIndicator)
    = (49152 + Z.of_nat k mod 16384,
       set_port (advanceAck p indicator contents) (uint16 (Z.of_nat k + 1)))
    ∧ handleListen p packet handle
      = redirectInbound
          (set_port (advanceAck p indicator contents) (uint16 (Z.of_nat k + 1)))
          packet handle indicator encappedIndicator
          (flowKey indicator encappedIndicator)
          (49152 + Z.of_nat k mod 16384).
Proof.
  intros Hport Hempty Hall _ k packet handle indicator ei contents Hk Hflow p.
  rewrite (handleListen_data _ _ _ _ _ _ Hflow).
  cut (distributePort (advanceAck p indicator contents) (flowKey indicator ei)
       = (49152 + Z.of_nat k mod 16384,
          set_port (advanceAck p indicator contents) (uint16 (Z.of_nat k + 1)))).
  { intros ->. split; reflexivity. }
  destruct (run_data_port (take k packets) p0 0) as [Hp Hd].
  { by apply Forall_take. }
  { done. }
  { by rewrite Hport. }
  fold p in Hp, Hd.
  assert (Hlen : length (take k packets) = k).
  { apply lookup_lt_Some in Hk. rewrite length_take. lia. }
  rewrite Hlen, Z.add_0_l in Hp.
  unfold distributePort.
  change (portDist (advanceAck p indicator contents)) with (portDist p).
  rewrite Hd, lookup_empty. simpl.
  change (port (advanceAck p indicator contents)) with (port p).
  rewrite distPort_value; change (port (advanceAck p indicator contents)) with (port p).
  - rewrite Hp, uint16_succ.
    replace (uint16 (Z.of_nat k) mod 16384) with (Z.of_nat k mod 16384);
      [reflexivity |].
    unfold uint16. symmetry. apply Z.mod_mod_divide. by exists 4.
  - rewrite Hp. unfold uint16. apply Z.mod_pos_bound. lia.
Qed.

(** ** The counters of the carrier sessions *)

Lemma handleListen_data_counters p packet handle indicator :
  parsePacket packet = Ok indicator →
  ind_SYN indicator = false →
  let p' := (handleListen p packet handle).1 in
  seqs p' = seqs p
  ∧ acks p'
    = match ind_ApplicationLayer indicator with
      | Some contents =>
          <[SrcAddr indicator :=
              uint32 (mapget (acks p) (SrcAddr indicator)
                      + Z.of_nat (length contents))]> (acks p)
      | None => acks p
      end.
Proof.
  intros Hparse Hsyn. unfold handleListen. rewrite Hparse, Hsyn.
  destruct (ind_ApplicationLayer indicator) as [contents |]; simpl; [| done].
  destruct (parseEncappedPacket contents) as [ei | err]; simpl; [| done].
  match goal with
  | |- context [distributePort ?s ?q] =>
      pose proof (distributePort_state s q) as (Hs & Ha & _);
      destruct (distributePort s q) as [d p1]
  end.
  simpl in Hs, Ha.
  pose proof (redirectInbound_state p1 packet handle indicator ei
                (flowKey indicator ei) d) as (Hs' & Ha' & _).
  simpl in Hs', Ha'. by rewrite Hs', Ha', Hs, Ha.
Qed.

(** C5 (as amended): the counters are 32-bit and wrap.  On the listen
    side, a SYN from a client sets its seqs entry to 0 and its acks
    entry to s + 1 whatever they held before, and touches no other
    client; a segment without SYN leaves seqs alone, and adds the
    length of its payload, if it has one, to the client's acks entry
    modulo 2^32, starting from 0 when the client has none yet; a frame
    that does not parse changes neither table.  So on a segment
    without SYN no ack counter decreases unless the addition wraps. *)
Theorem handleListen_counters p packet handle :
  let p' := (handleListen p packet handle).1 in
  (∀ err, parsePacket packet = Err err → seqs p' = seqs p ∧ acks p' = acks p)
  ∧ (∀ indicator, parsePacket packet = Ok indicator → ind_SYN indicator = true →
       seqs p' = <[SrcAddr indicator := 0]> (seqs p)
       ∧ acks p' = <[SrcAddr indicator := uint32 (ind_Seq indicator + 1)]> (acks p))
  ∧ (∀ indicator, parsePacket packet = Ok indicator → ind_SYN indicator = false →
       seqs p' = seqs p
       ∧ acks p'
         = match ind_ApplicationLayer indicator with
           | Some contents =>
               <[SrcAddr indicator :=
                   uint32 (mapget (acks p) (SrcAddr indicator)
                           + Z.of_nat (length contents))]> (acks p)
           | None => acks p
           end
       ∧ (0 ≤ mapget (acks p) (SrcAddr indicator) →
          mapget (acks p) (SrcAddr indicator)
          + Z.of_nat (length (default [] (ind_ApplicationLayer indicator)))
          < 4294967296 →
          ∀ client, mapget (acks p) client ≤ mapget (acks p') client)).
Proof.
  intros p'. split; [| split].
  - intros err Hparse. subst p'. unfold handleListen. by rewrite Hparse.
  - intros indicator Hparse Hsyn.
    exact (handleListen_SYN_counters p packet handle indicator Hparse Hsyn).
  - intros indicator Hparse Hsyn.
    destruct (handleListen_data_counters p packet handle indicator Hparse Hsyn)
      as [Hs Ha].
    fold p' in Hs, Ha. split; [exact Hs |]. split; [exact Ha |].
    intros Hnonneg Hsmall client. rewrite Ha.
    destruct (ind_ApplicationLayer indicator) as [contents |]; simpl in *; [| lia].
    destruct (decide (client = SrcAddr indicator)) as [-> | Hne].
    + rewrite mapget_insert. unfold uint32. rewrite Z.mod_small; lia.
    + unfold mapget. rewrite lookup_insert_ne by done. lia.
Qed.

(** The forward table is the same after any run of frames. *)
Lemma run_portDist (frames : list Frame) p :
  portDist (run p frames).1 = portDist p.
Proof.
  revert p. induction frames as [| f frames IH]; intros p; [done |].
  simpl.
  assert (Hf : portDist (handle_frame p f).1 = portDist p).
  { destruct f as [packet handle | packet]; simpl.
    - apply handleListen_portDist.
    - by destruct (handleUpstream_shape p packet) as [-> _]. }
  destruct (handle_frame p f) as [p1 out]. simpl in Hf.
  specialize (IH p1). destruct (run p1 frames) as [p2 out']. simpl in *.
  by rewrite IH.
Qed.

End Properties.

(** * The handlers on the frames of the scenarios *)

Section Replay.

Import Scenario.

Local Abbreviation listen := (handleListen (H := Wire.env)).
Local Abbreviation upstream := (handleUpstream (H := Wire.env)).

(** Scenario 1: SYN with seq = 42; the two counters are 0 and 43 and
    the IPv4 id has moved. *)
Example scenario_syn :
  seqs afterSyn !! client = Some 0 ∧ acks afterSyn !! client = Some 43
  ∧ id afterSyn = 1.
Proof. vm_compute. auto. Qed.

(** Scenario 2 on the code: the frame leaves with source port 49152
    (bytes 34 and 35 of the Ethernet frame) and TTL 63 (byte 22), the
    ack moves by the 40 bytes of the inner packet, and the cursor moves
    to 1. *)
Example scenario_data :
  ∃ written printed,
    (listen afterSyn (data 43 (innerUDP 64 55555)) listenHandle).2
    = WritePacketData upstreamHandle written :: printed
    ∧ Wire.rd16 written 34 = 49152
    ∧ Wire.byte_at written 22 = 63
    ∧ acks afterData !! client = Some 83
    ∧ port afterData = 1.
Proof.
  do 2 eexists. split; [vm_compute; reflexivity |].
  repeat split; vm_compute; reflexivity.
Qed.

(** Scenario 3 on the code: a reply addressed to the inner port 55555
    finds the NAT entry and ends in the default case of the link-layer
    switch; the reply to 198.51.100.1:49152 finds none. *)
Example scenario_reply :
  (upstream afterData (reply 55555)).2
  = [Println (Errorf "handle upstream"
                (Errorf "create link layer" (TypeNotSupport LayerTypeZero)))]
  ∧ (upstream afterData (reply 49152)).2 = [].
Proof. split; vm_compute; reflexivity. Qed.

(** C3 (fails on the code): every entry of the NAT table is to have a
    key with the allocated port as its source port, matched by an entry
    of the forward table.  After the SYN and the data segment of
    scenario 2 the frame has left with the allocated port 49152, the
    NAT table holds one entry, under the inner source port 55555 and
    not under 49152, and the forward table is empty. *)
Theorem nat_entry_without_forward_entry :
  (∃ written printed,
     (listen afterSyn (data 43 (innerUDP 64 55555)) listenHandle).2
     = WritePacketData upstreamHandle written :: printed
     ∧ Wire.rd16 written 34 = 49152)
  ∧ nat afterData !! recordedKey
    = Some {| ps_SrcIP := "10.0.0.2"; ps_SrcPort := 40000;
              ps_EncappedSrcIP := "10.0.0.2"; ps_EncappedSrcPort := 55555;
              ps_Handle := listenHandle |}
  ∧ nat afterData !! expectedKey = None
  ∧ size (nat afterData) = 1%nat
  ∧ portDist afterData = ∅.
Proof.
  split.
  - do 2 eexists. split; vm_compute; reflexivity.
  - repeat split; vm_compute; reflexivity.
Qed.

(** C5 (fails as stated): a second SYN from the same client lowers its
    ack counter from 101 to 6, and a data segment from a client that
    never sent a SYN creates its ack entry. *)
Lemma counters_reset_and_early :
  let once := (listen server (syn 100) listenHandle).1 in
  let twice := (listen once (syn 5) listenHandle).1 in
  let early := (listen server (data 43 (innerUDP 64 55555)) listenHandle).1 in
  acks once !! client = Some 101
  ∧ acks twice !! client = Some 6
  ∧ mapget (acks twice) client < mapget (acks once) client
  ∧ seqs server !! client = None
  ∧ acks server !! client = None
  ∧ acks early !! client = Some 40.
Proof. vm_compute. repeat split; reflexivity. Qed.

(** C6 (fails as stated): an inner IPv4 packet with TTL 0 is not
    dropped; it leaves on the upstream handle with TTL 255. *)
Lemma ttl_zero_is_forwarded :
  ∃ encappedIndicator written printed,
    Wire.parseEncappedPacket (innerUDP 0 55555) = Ok encappedIndicator
    ∧ ind_NetworkLayerType encappedIndicator = LayerTypeIPv4
    ∧ ind_TTL encappedIndicator = 0
    ∧ (listen afterSyn (data 43 (innerUDP 0 55555)) listenHandle).2
      = WritePacketData upstreamHandle written :: printed
    ∧ Wire.byte_at written 22 = 255.
Proof.
  do 3 eexists. split; [vm_compute; reflexivity |].
  split; [vm_compute; reflexivity |].
  split; [vm_compute; reflexivity |].
  split; vm_compute; reflexivity.
Qed.

(** C4 (fails as stated): behind a gateway whose hardware address is
    not known, the client's SYN is parsed and sets the two counters,
    and no SYN+ACK leaves: the serializer refuses the Ethernet header
    and the handler prints the error. *)
Lemma syn_without_reply :
  let r := listen Variants.unresolved (syn 42) listenHandle in
  ∃ indicator,
    Wire.parsePacket (syn 42) = Ok indicator
    ∧ ind_SYN indicator = true
    ∧ seqs r.1 !! client = Some 0
    ∧ acks r.1 !! client = Some 43
    ∧ r.2 = [Println (Errorf "handle listen"
                        (Errorf "handshake" (errors_New "invalid mac")))]
    ∧ ∀ h written, WritePacketData h written ∉ r.2.
Proof.
  eexists. split; [vm_compute; reflexivity |].
  split; [vm_compute; reflexivity |].
  split; [vm_compute; reflexivity |].
  split; [vm_compute; reflexivity |].
  assert (Hout : (listen Variants.unresolved (syn 42) listenHandle).2
                 = [Println (Errorf "handle listen"
                               (Errorf "handshake" (errors_New "invalid mac")))])
    by (vm_compute; reflexivity).
  split; [exact Hout |].
  intros h written Hin. cbv zeta in Hin. rewrite Hout in Hin.
  by apply list_elem_of_singleton in Hin.
Qed.


End Replay.

(** * The theorems at concrete frames *)

Section Instances.

Import Scenario.

Local Abbreviation listen := (handleListen (H := Wire.env)).
Local Abbreviation upstream := (handleUpstream (H := Wire.env)).

(** C4 at scenario 1, the client's SYN with seq = 42 answered over IPv4
    and Ethernet (the TCP header starts at byte 34 of the frame), and
    at a SYN that comes over IPv6 to a server whose upstream device is
    loopback (the TCP header starts at byte 44). *)
Lemma handleListen_SYN_handshake_witness :
  (seqs (listen server (syn 42) listenHandle).1 !! client = Some 0
   ∧ acks (listen server (syn 42) listenHandle).1 !! client = Some 43
   ∧ ∃ written printed,
       (listen server (syn 42) listenHandle).2
       = WritePacketData upstreamHandle written :: printed
       ∧ Wire.serialize
           (EthernetLayer {| eth_SrcMAC := upstreamMAC; eth_DstMAC := gatewayMAC;
                             eth_EthernetType := 2048 |})
           (IPv4Layer {| ip4_Id := 0; ip4_Flags := 0; ip4_TTL := 128;
                         ip4_Protocol := 6; ip4_SrcIP := serverIP;
                         ip4_DstIP := clientIP |})
           (TCPLayer (Wire.createTCPLayerSYNACK 8080 40000 0 43))
           []
         = Ok written
       ∧ Wire.rd16 written 34 = 8080 ∧ Wire.rd16 written 36 = 40000
       ∧ Wire.rd32 written 38 = 0 ∧ Wire.rd32 written 42 = 43
       ∧ Wire.byte_at written 47 = 18)
  ∧ (seqs (listen Variants.looped (Variants.syn6 42) listenHandle).1
       !! Variants.client6 = Some 0
     ∧ acks (listen Variants.looped (Variants.syn6 42) listenHandle).1
         !! Variants.client6 = Some 43
     ∧ ∃ written printed,
         (listen Variants.looped (Variants.syn6 42) listenHandle).2
         = WritePacketData upstreamHandle written :: printed
         ∧ Wire.serialize
             (LoopbackLayer Wire.createLinkLayerLoopback)
             (IPv6Layer {| ip6_NextHeader := 6; ip6_HopLimit := 64;
                           ip6_SrcIP := Variants.serverIP6;
                           ip6_DstIP := Variants.clientIP6 |})
             (TCPLayer (Wire.createTCPLayerSYNACK 8080 40000 0 43))
             []
           = Ok written
         ∧ Wire.rd16 written 44 = 8080 ∧ Wire.rd16 written 46 = 40000
         ∧ Wire.rd32 written 48 = 0 ∧ Wire.rd32 written 52 = 43
         ∧ Wire.byte_at written 57 = 18).
Proof.
  split.
  - edestruct (handleListen_SYN_handshake (H := Wire.env) server (syn 42)
                 listenHandle) as (Hs & Ha & Hw & _).
    { vm_compute. reflexivity. }
    { vm_compute. reflexivity. }
    split; [vm_compute in Hs; vm_compute; exact Hs |].
    split; [vm_compute in Ha; vm_compute; exact Ha |].
    edestruct (Hw (IPv4Layer {| ip4_Id := 0; ip4_Flags := 0; ip4_TTL := 128;
                                ip4_Protocol := 6; ip4_SrcIP := serverIP;
                                ip4_DstIP := clientIP |})
                  (EthernetLayer {| eth_SrcMAC := upstreamMAC;
                                    eth_DstMAC := gatewayMAC;
                                    eth_EthernetType := 2048 |}))
      as (printed & Hout & _).
    { split; vm_compute; eexists; split; reflexivity. }
    { vm_compute. reflexivity. }
    eexists _, printed. split; [exact Hout |].
    repeat split; vm_compute; reflexivity.
  - edestruct (handleListen_SYN_handshake (H := Wire.env) Variants.looped
                 (Variants.syn6 42) listenHandle) as (Hs & Ha & Hw & _).
    { vm_compute. reflexivity. }
    { vm_compute. reflexivity. }
    split; [vm_compute in Hs; vm_compute; exact Hs |].
    split; [vm_compute in Ha; vm_compute; exact Ha |].
    edestruct (Hw (IPv6Layer {| ip6_NextHeader := 6; ip6_HopLimit := 64;
                                ip6_SrcIP := Variants.serverIP6;
                                ip6_DstIP := Variants.clientIP6 |})
                  (LoopbackLayer Wire.createLinkLayerLoopback))
      as (printed & Hout & _).
    { split; vm_compute; [eexists; split; reflexivity | reflexivity]. }
    { vm_compute. reflexivity. }
    eexists _, printed. split; [exact Hout |].
    repeat split; vm_compute; reflexivity.
Defined.

(** C8 at scenario 6: the reply to port 49152 has no entry in the NAT
    table that scenario 2 left. *)
Lemma handleUpstream_miss_witness :
  upstream afterData (reply 49152) = (afterData, []).
Proof.
  eapply (handleUpstream_miss (H := Wire.env)).
  - vm_compute. reflexivity.
  - vm_compute. reflexivity.
Defined.

(** C9 at a segment whose three payload bytes are no IP packet: the ack
    moves from 43 to 46 and the frame is dropped. *)
Lemma handleListen_ack_before_parse_witness :
  acks (listen afterSyn (data 43 garbage) listenHandle).1 !! client = Some 46
  ∧ ∃ err,
      (listen afterSyn (data 43 garbage) listenHandle).2
      = [Println (Errorf "handle listen" err)].
Proof.
  edestruct (handleListen_ack_before_parse (H := Wire.env) afterSyn
               (data 43 garbage) listenHandle) as [Hack Hdrop].
  { vm_compute. reflexivity. }
  { vm_compute. reflexivity. }
  { vm_compute. reflexivity. }
  split.
  - rewrite Hack. vm_compute. reflexivity.
  - eexists. erewrite Hdrop; [reflexivity |]. vm_compute. reflexivity.
Defined.


(** C6 at scenario 2: inner TTL 64, sent on with TTL 63 (byte 22 of
    the frame). *)
Lemma handleListen_ttl_witness :
  ∃ written printed,
    (listen afterSyn (data 43 (innerUDP 64 55555)) listenHandle).2
    = WritePacketData upstreamHandle written :: printed
    ∧ Wire.byte_at written 22 = 63.
Proof.
  edestruct (handleListen_ttl (H := Wire.env) afterSyn
               (data 43 (innerUDP 64 55555)) listenHandle)
    as ((printed & Hout) & _ & _).
  { vm_compute. reflexivity. }
  { vm_compute. reflexivity. }
  { vm_compute. reflexivity. }
  { vm_compute. reflexivity. }
  { vm_compute. reflexivity. }
  { vm_compute. reflexivity. }
  eexists _, printed. split; [exact Hout |].
  vm_compute. reflexivity.
Defined.

(** C7 at three flows: the third data segment is sent on with port
    49154, and leaves with it (bytes 34 and 35 of the frame). *)
Lemma port_allocation_deterministic_witness :
  ∃ indicator encappedIndicator contents,
    innerFlow (H := Wire.env) (data 123 (innerUDP 64 55557))
    = Some (indicator, encappedIndicator, contents)
    ∧ (distributePort
         (advanceAck (H := Wire.env)
            (run (H := Wire.env) server (listenFrames (take 2 threeFlows))).1
            indicator contents)
         (flowKey (H := Wire.env) indicator encappedIndicator)).1
      = 49152 + Z.of_nat 2 mod 16384
    ∧ listen (run (H := Wire.env) server (listenFrames (take 2 threeFlows))).1
        (data 123 (innerUDP 64 55557)) listenHandle
      = redirectInbound (H := Wire.env)
          (set_port
             (advanceAck (H := Wire.env)
                (run (H := Wire.env) server (listenFrames (take 2 threeFlows))).1
                indicator contents)
             (uint16 (Z.of_nat 2 + 1)))
          (data 123 (innerUDP 64 55557)) listenHandle indicator encappedIndicator
          (flowKey (H := Wire.env) indicator encappedIndicator)
          (49152 + Z.of_nat 2 mod 16384)
    ∧ ∃ written printed,
        (listen (run (H := Wire.env) server (listenFrames (take 2 threeFlows))).1
           (data 123 (innerUDP 64 55557)) listenHandle).2
        = WritePacketData upstreamHandle written :: printed
        ∧ Wire.rd16 written 34 = 49154.
Proof.
  do 3 eexists.
  match goal with
  | |- ?F ∧ _ => assert (Hflow : F) by (vm_compute; reflexivity)
  end.
  split; [exact Hflow |].
  assert (Hall : Forall (fun ph => is_Some (innerFlow (H := Wire.env) ph.1))
                   threeFlows).
  { unfold threeFlows.
    repeat (apply List.Forall_cons; [eexists; vm_compute; reflexivity |]).
    apply List.Forall_nil. }
  assert (Hdistinct : NoDup (omap (fun ph => innerFlowKey (H := Wire.env) ph.1)
                               threeFlows)).
  { vm_compute.
    repeat (apply NoDup_cons_2;
            [intros Hin;
             repeat (apply elem_of_cons in Hin as [Hin | Hin]; [discriminate |]);
             by apply elem_of_nil in Hin |]).
    apply NoDup_nil_2. }
  destruct (port_allocation_deterministic (H := Wire.env) threeFlows server
              eq_refl eq_refl Hall Hdistinct 2%nat _ _ _ _ _ eq_refl Hflow)
    as [Hport Hlisten].
  split; [rewrite Hport; reflexivity |].
  split; [exact Hlisten |].
  do 2 eexists. split; vm_compute; reflexivity.
Defined.

(** C5 at the data segment of scenario 2: the ack goes from 43 to 83
    and the seq stays 0. *)
Lemma handleListen_counters_witness :
  seqs afterData !! client = Some 0
  ∧ acks afterSyn !! client = Some 43
  ∧ acks afterData !! client = Some 83.
Proof.
  destruct (handleListen_counters (H := Wire.env) afterSyn
              (data 43 (innerUDP 64 55555)) listenHandle) as (_ & _ & Hdata).
  edestruct Hdata as (Hs & Ha & _).
  { vm_compute. reflexivity. }
  { vm_compute. reflexivity. }
  fold afterData in Hs, Ha.
  split; [rewrite Hs; vm_compute; reflexivity |].
  split; [vm_compute; reflexivity |].
  rewrite Ha. vm_compute. reflexivity.
Defined.

End Instances.

(** * Properties of runs *)

Section Runs.

Context `{Externals}.

Implicit Types (p : Server) (packet : Packet) (handle : Handle) (f : Frame).
Implicit Types (indicator encappedIndicator : packetIndicator).

Ltac break_match :=
  match goal with
  | |- context [match ?x with _ => _ end] => destruct x eqn:?
  end.

Lemma run_cons p f frames :
  run p (f :: frames)
  = ((run (handle_frame p f).1 frames).1,
     (handle_frame p f).2 ++ (run (handle_frame p f).1 frames).2).
Proof.
  simpl. destruct (handle_frame p f) as [p1 out]. simpl.
  by destruct (run p1 frames).
Qed.

(** A relation between the server before and after that every frame
    keeps is kept by every run. *)
Lemma run_steps (R : Server → Server → Prop) :
  (∀ p, R p p) →
  (∀ p1 p2 p3, R p1 p2 → R p2 p3 → R p1 p3) →
  (∀ p f, R p (handle_frame p f).1) →
  ∀ frames p, R p (run p frames).1.
Proof.
  intros Hrefl Htrans Hstep frames.
  induction frames as [| f frames IH]; intros p; [apply Hrefl |].
  rewrite run_cons. simpl. eapply Htrans; [apply Hstep | apply IH].
Qed.

Lemma handshake_config p indicator :
  config (handshake p indicator).1.1 = config p.
Proof. unfold handshake. repeat break_match; reflexivity. Qed.

Lemma redirectInbound_config p packet handle indicator encappedIndicator q d :
  config (redirectInbound p packet handle indicator encappedIndicator q d).1
  = config p.
Proof. unfold redirectInbound. repeat break_match; reflexivity. Qed.

Lemma distributePort_config p q : config (distributePort p q).2 = config p.
Proof. unfold distributePort. by destruct (portDist p !! q). Qed.

Lemma handleListen_config p packet handle :
  config (handleListen p packet handle).1 = config p.
Proof.
  unfold handleListen.
  destruct (parsePacket packet) as [indicator | err]; [| done].
  destruct (ind_SYN indicator).
  - pose proof (handshake_config p indicator) as Hc.
    by destruct (handshake p indicator) as [[p' out] [e |]].
  - destruct (ind_ApplicationLayer indicator) as [contents |]; [| done].
    destruct (parseEncappedPacket contents) as [ei | err]; [| done].
    match goal with
    | |- context [distributePort ?s ?q] =>
        pose proof (distributePort_config s q) as Hc;
        destruct (distributePort s q) as [d p1]
    end.
    simpl in Hc. by rewrite redirectInbound_config, Hc.
Qed.

Lemma handle_frame_config p f : config (handle_frame p f).1 = config p.
Proof.
  destruct f as [packet handle | packet]; simpl.
  - apply handleListen_config.
  - by destruct (handleUpstream_shape p packet) as [-> _].
Qed.

Lemma config_upHandle p p' : config p' = config p → upHandle p' = upHandle p.
Proof. unfold config. by intros [= _ _ _ _ _ ->]. Qed.

(** ** Where frames are written *)

Lemma writes_elsewhere_same handle data :
  writes_elsewhere handle (WritePacketData handle data) = false.
Proof. simpl. by rewrite bool_decide_eq_true_2. Qed.

Lemma handshake_writes_upstream p indicator :
  Forall (fun o => writes_elsewhere (upHandle p) o = false)
    (handshake p indicator).1.2.
Proof.
  unfold handshake. repeat break_match; simpl;
    repeat constructor; apply writes_elsewhere_same.
Qed.

Lemma redirectInbound_writes_upstream p packet handle indicator encappedIndicator
    q d :
  Forall (fun o => writes_elsewhere (upHandle p) o = false)
    (redirectInbound p packet handle indicator encappedIndicator q d).2.
Proof.
  unfold redirectInbound. repeat break_match; simpl;
    repeat constructor; apply writes_elsewhere_same.
Qed.

Lemma handleListen_writes_upstream p packet handle :
  Forall (fun o => writes_elsewhere (upHandle p) o = false)
    (handleListen p packet handle).2.
Proof.
  unfold handleListen.
  destruct (parsePacket packet) as [indicator | err]; [| by repeat constructor].
  destruct (ind_SYN indicator).
  - pose proof (handshake_writes_upstream p indicator) as Hw.
    destruct (handshake p indicator) as [[p' out] [e |]]; simpl in *;
      (apply Forall_app; split; [exact Hw | by repeat constructor]).
  - destruct (ind_ApplicationLayer indicator) as [contents |]; [| constructor].
    destruct (parseEncappedPacket contents) as [ei | err]; [| by repeat constructor].
    match goal with
    | |- context [distributePort ?s ?q] =>
        pose proof (config_upHandle _ _ (distributePort_config s q)) as Hu;
        destruct (distributePort s q) as [d p1]
    end.
    simpl in Hu. change (upHandle p1 = upHandle p) in Hu. rewrite <- Hu.
    apply redirectInbound_writes_upstream.
Qed.

Lemma handle_frame_writes_upstream p f :
  Forall (fun o => writes_elsewhere (upHandle p) o = false) (handle_frame p f).2.
Proof.
  destruct f as [packet handle | packet]; simpl.
  - apply handleListen_writes_upstream.
  - destruct (handleUpstream_shape p packet) as [_ Hw].
    eapply Forall_impl; [exact Hw |]. by intros [].
Qed.

(** X1: whatever frames arrive, on listen handles or on the upstream
    handle, every frame the server writes goes to the upstream handle:
    nothing is ever written to a listen handle. *)
Theorem run_writes_only_upstream (frames : list Frame) p handle data :
  WritePacketData handle data ∈ (run p frames).2 → handle = upHandle p.
Proof.
  revert p. induction frames as [| f frames IH]; intros p.
  - simpl. by intros ?%elem_of_nil.
  - rewrite run_cons. simpl. intros [Hin | Hin]%elem_of_app.
    + pose proof (handle_frame_writes_upstream p f) as Hw.
      rewrite Forall_forall in Hw. specialize (Hw _ Hin). simpl in Hw.
      by destruct (decide (handle = upHandle p)) as [-> | Hne];
        [| rewrite bool_decide_eq_false_2 in Hw].
    + rewrite (IH _ Hin).
      apply config_upHandle, handle_frame_config.
Qed.

(** ** The tables over a run *)

Lemma redirectInbound_nat_grows p packet handle indicator encappedIndicator q d
    (k : quintuple) :
  is_Some (nat p !! k) →
  is_Some (nat (redirectInbound p packet handle indicator encappedIndicator q d).1
           !! k).
Proof.
  intros Hk. unfold redirectInbound. repeat break_match; simpl; try done;
    rewrite lookup_insert_is_Some'; auto.
Qed.

Lemma handleListen_nat_grows p packet handle (k : quintuple) :
  is_Some (nat p !! k) → is_Some (nat (handleListen p packet handle).1 !! k).
Proof.
  intros Hk. unfold handleListen.
  destruct (parsePacket packet) as [indicator | err]; [| done].
  destruct (ind_SYN indicator).
  - pose proof (handshake_state p indicator) as (_ & _ & Hn).
    destruct (handshake p indicator) as [[p' out] [e |]]; simpl in *;
      by rewrite Hn.
  - destruct (ind_ApplicationLayer indicator) as [contents |]; [| done].
    destruct (parseEncappedPacket contents) as [ei | err]; [| done].
    match goal with
    | |- context [distributePort ?s ?q] =>
        pose proof (distributePort_state s q) as (_ & _ & _ & _ & Hn);
        destruct (distributePort s q) as [d p1]
    end.
    simpl in Hn. apply redirectInbound_nat_grows. by rewrite Hn.
Qed.

Lemma handleListen_counters_shape p packet handle :
  let p' := (handleListen p packet handle).1 in
  (seqs p' = seqs p ∨ ∃ c, seqs p' = <[c := 0]> (seqs p))
  ∧ (acks p' = acks p ∨ ∃ c v, acks p' = <[c := v]> (acks p)).
Proof.
  destruct (parsePacket packet) as [indicator | err] eqn:Hparse.
  - destruct (ind_SYN indicator) eqn:Hsyn.
    + destruct (handleListen_SYN_counters p packet handle indicator Hparse Hsyn)
        as [Hs Ha].
      split; right; eauto.
    + destruct (handleListen_data_counters p packet handle indicator Hparse Hsyn)
        as [Hs Ha].
      split; [by left |].
      destruct (ind_ApplicationLayer indicator); [right; eauto | by left].
  - unfold handleListen. rewrite Hparse. simpl. auto.
Qed.

(** X2: the server only ever adds to its tables and never changes its
    configuration: after any run of frames the listen port, the
    devices and the handles are the same, and every key of seqs, acks
    and nat that was present is still present (there is no eviction). *)
Theorem run_keeps_config_and_keys (frames : list Frame) p :
  let p' := (run p frames).1 in
  config p' = config p
  ∧ (∀ client, is_Some (seqs p !! client) → is_Some (seqs p' !! client))
  ∧ (∀ client, is_Some (acks p !! client) → is_Some (acks p' !! client))
  ∧ (∀ q, is_Some (nat p !! q) → is_Some (nat p' !! q)).
Proof.
  apply (run_steps (fun p p' =>
    config p' = config p
    ∧ (∀ client, is_Some (seqs p !! client) → is_Some (seqs p' !! client))
    ∧ (∀ client, is_Some (acks p !! client) → is_Some (acks p' !! client))
    ∧ (∀ q, is_Some (nat p !! q) → is_Some (nat p' !! q)))).
  - auto.
  - intros p1 p2 p3 (Hc & Hs & Ha & Hn) (Hc' & Hs' & Ha' & Hn').
    split; [congruence |]. auto 10.
  - intros p0 f. split; [apply handle_frame_config |].
    destruct f as [packet handle | packet]; simpl.
    + destruct (handleListen_counters_shape p0 packet handle) as [Hs Ha].
      split; [| split].
      * intros c Hc. destruct Hs as [-> | [c' ->]]; [done |].
        rewrite lookup_insert_is_Some'. auto.
      * intros c Hc. destruct Ha as [-> | (c' & v & ->)]; [done |].
        rewrite lookup_insert_is_Some'. auto.
      * intros q. apply handleListen_nat_grows.
    + by destruct (handleUpstream_shape p0 packet) as [-> _].
Qed.

(** X3: the sequence numbers of the carrier never move.  When every
    seqs entry is 0 (as after Open, where there is none), every seqs
    entry is 0 after any run of frames: a SYN stores 0, and the only
    statement that adds to seqs, at the end of handleUpstream, is never
    reached. *)
Theorem run_seqs_stay_zero (frames : list Frame) p :
  map_Forall (fun _ seq => seq = 0) (seqs p) →
  map_Forall (fun _ seq => seq = 0) (seqs (run p frames).1).
Proof.
  apply (run_steps (fun p p' =>
    map_Forall (fun _ seq => seq = 0) (seqs p) →
    map_Forall (fun _ seq => seq = 0) (seqs p'))).
  - auto.
  - auto.
  - intros p0 f Hz. destruct f as [packet handle | packet]; simpl.
    + destruct (handleListen_counters_shape p0 packet handle) as [[-> | [c ->]] _];
        [done |].
      by apply map_Forall_insert_2.
    + by destruct (handleUpstream_shape p0 packet) as [-> _].
Qed.

(** ** The ack counter over a run *)

Lemma uint32_add_l (a b : Z) : uint32 (uint32 a + b) = uint32 (a + b).
Proof. unfold uint32. apply Zplus_mod_idemp_l. Qed.

Lemma handle_frame_acks (client : string) p f (a : Z) :
  synFrom client f = false →
  mapget (acks p) client = uint32 a →
  mapget (acks (handle_frame p f).1) client = uint32 (a + ackBytes client f).
Proof.
  intros Hsyn Ha. destruct f as [packet handle | packet]; simpl in *.
  - destruct (parsePacket packet) as [indicator | err] eqn:Hparse.
    + destruct (ind_SYN indicator) eqn:Hflag; simpl in Hsyn.
      * destruct (handleListen_SYN_counters p packet handle indicator Hparse Hflag)
          as [_ Hacks].
        rewrite Hacks, Z.add_0_r. unfold mapget in *.
        apply bool_decide_eq_false_1 in Hsyn.
        by rewrite lookup_insert_ne.
      * destruct (handleListen_data_counters p packet handle indicator Hparse Hflag)
          as [_ Hacks].
        rewrite Hacks.
        destruct (ind_ApplicationLayer indicator) as [contents |];
          [| by rewrite Z.add_0_r].
        case_bool_decide as Hc.
        -- subst client. by rewrite mapget_insert, Ha, uint32_add_l.
        -- unfold mapget in *. rewrite lookup_insert_ne by done.
           by rewrite Z.add_0_r.
    + unfold handleListen. rewrite Hparse. simpl. by rewrite Z.add_0_r.
  - destruct (handleUpstream_shape p packet) as [-> _]. by rewrite Z.add_0_r.
Qed.

(** X4: acks[client] is the running total of what the client has sent.
    Over a run of frames in which the client sends no SYN, its ack
    counter grows by the payload lengths of its own data segments,
    modulo 2^32, whatever other clients and the upstream side do in
    between, and whether or not the inner packets parse. *)
Theorem run_acks_total (client : string) (frames : list Frame) p :
  Forall (fun f => synFrom client f = false) frames →
  0 ≤ mapget (acks p) client < 4294967296 →
  mapget (acks (run p frames).1) client
  = uint32 (mapget (acks p) client + totalAckBytes client frames).
Proof.
  intros Hall Hr.
  assert (Ha : mapget (acks p) client = uint32 (mapget (acks p) client)).
  { unfold uint32. by rewrite Z.mod_small. }
  revert Ha. generalize (mapget (acks p) client) at 2 3 as a. clear Hr.
  revert p. induction Hall as [| f frames Hsyn _ IH]; intros p a Ha.
  - simpl. by rewrite Z.add_0_r.
  - rewrite run_cons. simpl.
    rewrite (IH _ (a + ackBytes client f)).
    + f_equal. lia.
    + by apply handle_frame_acks.
Qed.

(** ** The port cursor over a run *)

Lemma handleListen_no_flow_port p packet handle :
  innerFlow packet = None → port (handleListen p packet handle).1 = port p.
Proof.
  unfold innerFlow, handleListen.
  destruct (parsePacket packet) as [indicator | err]; [| done].
  destruct (ind_SYN indicator).
  - intros _. pose proof (handshake_state p indicator) as (Hp & _).
    by destruct (handshake p indicator) as [[p' out] [e |]].
  - destruct (ind_ApplicationLayer indicator) as [contents |]; [| done].
    by destruct (parseEncappedPacket contents).
Qed.

Lemma uint16_add_l (a b : Z) : uint16 (uint16 a + b) = uint16 (a + b).
Proof. unfold uint16. apply Zplus_mod_idemp_l. Qed.

Lemma handle_frame_port p f (n : Z) :
  portDist p = ∅ →
  port p = uint16 n →
  port (handle_frame p f).1 = uint16 (n + (if reachesDistribute f then 1 else 0))
  ∧ portDist (handle_frame p f).1 = ∅.
Proof.
  intros Hempty Hport. destruct f as [packet handle | packet]; simpl.
  - split; [| by rewrite handleListen_portDist].
    destruct (innerFlow packet) as [flow |] eqn:Hflow.
    + rewrite handleListen_data_port by (by rewrite ?Hflow).
      by rewrite Hport, uint16_add_l.
    + rewrite handleListen_no_flow_port by done. by rewrite Z.add_0_r.
  - destruct (handleUpstream_shape p packet) as [-> _]. by rewrite Z.add_0_r.
Qed.

(** X5: the port cursor counts the data segments.  From a server whose
    forward table is empty, after any run of frames the cursor has
    advanced, in 16 bits, by the number of carrier segments that
    reached "Distribute port" (no SYN, a payload, an inner packet that
    parses), repeated flows included; no other frame moves it, and the
    forward table is still empty. *)
Theorem run_port_counts_segments (frames : list Frame) p :
  portDist p = ∅ →
  0 ≤ port p < 65536 →
  port (run p frames).1 = uint16 (port p + distributions frames)
  ∧ portDist (run p frames).1 = ∅.
Proof.
  intros Hempty Hr.
  assert (Hport : port p = uint16 (port p)).
  { unfold uint16. by rewrite Z.mod_small. }
  revert Hport. generalize (port p) at 2 3 as n. clear Hr.
  revert p Hempty. induction frames as [| f frames IH]; intros p Hempty n Hport.
  - simpl. by rewrite Z.add_0_r.
  - rewrite run_cons. simpl.
    destruct (handle_frame_port p f n Hempty Hport) as [Hp Hd].
    destruct (IH _ Hd _ Hp) as [IHp IHd].
    split; [| done]. rewrite IHp. f_equal. lia.
Qed.

(** X6: with the forward table empty, the port handed to a segment
    depends only on how many data segments came before it: after i and
    after j data segments "Distribute port" yields the same port, for
    any two flow keys, exactly when i and j agree modulo 16384.  So a
    flow that sends twice in a row gets two different ports, and the
    segment 16384 allocations later gets the port of the first. *)
Theorem distributePort_same_port_iff (packets : list (Packet * Handle)) p0
    (i j : Datatypes.nat) (q q' : quintuple) :
  port p0 = 0 →
  portDist p0 = ∅ →
  Forall (fun ph => is_Some (innerFlow ph.1)) packets →
  (i ≤ length packets)%nat →
  (j ≤ length packets)%nat →
  (distributePort (run p0 (listenFrames (take i packets))).1 q).1
  = (distributePort (run p0 (listenFrames (take j packets))).1 q').1
  ↔ Z.of_nat i mod 16384 = Z.of_nat j mod 16384.
Proof.
  intros Hport Hempty Hall Hi Hj.
  assert (Hat : ∀ (k : Datatypes.nat) (key : quintuple),
             (k ≤ length packets)%nat →
             (distributePort (run p0 (listenFrames (take k packets))).1 key).1
             = 49152 + Z.of_nat k mod 16384).
  { intros k key Hk.
    destruct (run_data_port (take k packets) p0 0) as [Hp Hd];
      [by apply Forall_take | done | by rewrite Hport |].
    rewrite length_take, Nat.min_l, Z.add_0_l in Hp by done.
    unfold distributePort. rewrite Hd, lookup_empty. simpl.
    rewrite distPort_value.
    - rewrite Hp. unfold uint16. f_equal. apply Z.mod_mod_divide. by exists 4.
    - rewrite Hp. unfold uint16. apply Z.mod_pos_bound. lia. }
  rewrite !Hat by done. lia.
Qed.

(** ** The IPv4 id counter *)

Lemma handshake_id p indicator :
  id (handshake p indicator).1.1
  = match (handshake p indicator).2 with
    | None =>
        if is_nil (IP_To4 (ind_DstIP indicator)) then id p else uint16 (id p + 1)
    | Some _ => id p
    end.
Proof.
  unfold handshake.
  destruct (is_nil (IP_To4 (ind_DstIP indicator)));
    (destruct (createCarrierNetworkLayer _ _ _ _ _ _); [| reflexivity]);
    (destruct (createNewLinkLayer _ _ _); [| reflexivity]);
    (destruct (serialize _ _ _ _); [| reflexivity]);
    destruct (Handle_WritePacketData _ _); reflexivity.
Qed.

Lemma handleListen_data_id p packet handle indicator :
  parsePacket packet = Ok indicator →
  ind_SYN indicator = false →
  id (handleListen p packet handle).1 = id p.
Proof.
  intros Hparse Hsyn. unfold handleListen. rewrite Hparse, Hsyn.
  destruct (ind_ApplicationLayer indicator) as [contents |]; [| done].
  destruct (parseEncappedPacket contents) as [ei | err]; [| done].
  match goal with
  | |- context [distributePort ?s ?q] =>
      pose proof (distributePort_state s q) as (_ & _ & Hi & _);
      destruct (distributePort s q) as [d p1]
  end.
  simpl in Hi.
  pose proof (redirectInbound_state p1 packet handle indicator ei
                (flowKey indicator ei) d) as (_ & _ & Hi' & _).
  simpl in Hi'. by rewrite Hi', Hi.
Qed.

(** X7: the shared IPv4 id is used up by handshakes only.  A frame
    advances the id, by one in 16 bits, exactly when it is a SYN
    answered over IPv4 whose handshake returns no error (so after the
    write went through); a handshake that fails at any stage, a
    handshake over IPv6, a data segment (which is sent on with the id
    of the inner packet) and an upstream frame leave it alone. *)
Theorem handle_frame_id p f :
  id (handle_frame p f).1 = if consumesId p f then uint16 (id p + 1) else id p.
Proof.
  destruct f as [packet handle | packet]; simpl.
  - destruct (parsePacket packet) as [indicator | err] eqn:Hparse.
    + destruct (ind_SYN indicator) eqn:Hsyn; simpl.
      * unfold handleListen. rewrite Hparse, Hsyn.
        pose proof (handshake_id p indicator) as Hid.
        destruct (handshake p indicator) as [[p' out] [e |]]; simpl in *;
          rewrite Hid; [by rewrite andb_false_r |].
        by destruct (is_nil (IP_To4 (ind_DstIP indicator))).
      * by apply (handleListen_data_id p packet handle indicator).
    + unfold handleListen. by rewrite Hparse.
  - by destruct (handleUpstream_shape p packet) as [-> _].
Qed.

(** ** A write that the driver refuses *)

(** X8: handleListen does not stop when the write to the upstream
    handle fails.  For a data segment whose layers are built and
    serialized, a write error is printed and the handler carries on:
    the redirect line is printed all the same, and the NAT entry
    recorded before the write and the advanced ack stay in place. *)
Theorem handleListen_write_error p packet handle indicator encappedIndicator
    contents transportLayer newNetworkLayer newLinkLayer data err :
  innerFlow packet = Some (indicator, encappedIndicator, contents) →
  modifyTransportLayer (ind_TransportLayerType encappedIndicator)
    (ind_TransportLayer encappedIndicator)
    (distributePort (advanceAck p indicator contents)
       (flowKey indicator encappedIndicator)).1
  = Asserted transportLayer →
  createNewNetworkLayer p encappedIndicator transportLayer = Ok newNetworkLayer →
  createNewLinkLayer p (decideLinkLayerType p) newNetworkLayer = Ok newLinkLayer →
  serialize newLinkLayer newNetworkLayer transportLayer
    (Payload (ind_set_layers encappedIndicator
                (ind_NetworkLayer encappedIndicator) transportLayer))
  = Ok data →
  Handle_WritePacketData (upHandle p) data = Some err →
  (handleListen p packet handle).2
  = [WritePacketData (upHandle p) data;
     Println (Errorf "handle listen" (Errorf "write" err));
     Printf_RedirectInbound (ind_TransportLayerType encappedIndicator)
       (SrcAddr encappedIndicator) (DstAddr encappedIndicator)
       (Metadata_Length packet)]
  ∧ nat (handleListen p packet handle).1
    = <[natKey p encappedIndicator :=
          natSrc indicator (flowKey indicator encappedIndicator) handle]> (nat p)
  ∧ acks (handleListen p packet handle).1
    = <[SrcAddr indicator :=
          uint32 (mapget (acks p) (SrcAddr indicator)
                  + Z.of_nat (length contents))]> (acks p).
Proof.
  intros Hflow Hmod Hnet Hlink Hser Hwrite.
  destruct (handleListen_built p packet handle _ _ _ _ _ _ Hflow Hmod Hnet Hlink)
    as [Hnat _].
  split; [| split; [exact Hnat |]].
  - rewrite (handleListen_data _ _ _ _ _ _ Hflow).
    set (a := advanceAck p indicator contents) in *.
    set (q := flowKey indicator encappedIndicator) in *.
    destruct (distributePort_env a q) as (Hup & Hgw & Hh). simpl in Hup, Hgw, Hh.
    set (p1 := (distributePort a q).2) in *.
    assert (Hup' : UpDev p1 = UpDev p) by (rewrite Hup; reflexivity).
    assert (Hgw' : GatewayDev p1 = GatewayDev p) by (rewrite Hgw; reflexivity).
    assert (Hh' : upHandle p1 = upHandle p) by (rewrite Hh; reflexivity).
    unfold redirectInbound. rewrite Hmod.
    rewrite (createNewNetworkLayer_env p p1) by done. rewrite Hnet.
    rewrite (createNewLinkLayer_env p p1) by done.
    unfold decideLinkLayerType in *. rewrite Hup', Hlink. simpl.
    rewrite Hser, Hh', Hwrite. reflexivity.
  - unfold innerFlow in Hflow.
    destruct (parsePacket packet) as [i | ?] eqn:Hparse; [| done].
    destruct (ind_SYN i) eqn:Hsyn; [done |].
    destruct (handleListen_data_counters p packet handle i Hparse Hsyn) as [_ Ha].
    rewrite Ha.
    destruct (ind_ApplicationLayer i) as [c |]; [| done].
    destruct (parseEncappedPacket c); [| done].
    by injection Hflow as -> _ ->.
Qed.

(** ** Replies *)

Lemma redirectOutbound_error p packet indicator ps :
  ∃ e, redirectOutbound p packet indicator ps
       = (p, [Println (Errorf "handle upstream" e)]).
Proof.
  unfold redirectOutbound.
  destruct (is_nil _); [eauto |].
  destruct (createCarrierNetworkLayer _ _ _ _ _ _); simpl; eauto.
Qed.

(** X9: a reply that finds its NAT entry is never delivered.  For every
    parsed upstream frame whose reverse key is in the NAT table,
    handleUpstream ends by printing an error of its own (or in the
    panic of a failed type assertion): the last thing it does is never
    a write nor the "Redirect an outbound" line. *)
Theorem handleUpstream_hit_ends_in_error p packet indicator :
  parsePacket packet = Ok indicator →
  is_Some (nat p !! reverseKey indicator) →
  ∃ o, last (handleUpstream p packet).2 = Some o
       ∧ (o = Panic ∨ ∃ e, o = Println (Errorf "handle upstream" e)).
Proof.
  intros Hparse [ps Hhit]. unfold handleUpstream. rewrite Hparse, Hhit.
  destruct (modifyTransportLayer _ _ _) as [tl | t |]; simpl; [| eauto | eauto].
  destruct (modifyNetworkLayer _ _ _) as [nl | t |]; simpl; [| | eauto].
  - destruct (redirectOutbound_error p packet (ind_set_layers indicator nl tl) ps)
      as [e ->]; simpl; eauto.
  - destruct (redirectOutbound_error p packet
                (ind_set_layers indicator (ind_NetworkLayer indicator) tl) ps)
      as [e ->]; simpl; eauto.
Qed.

(** X10: the reply to a forwarded packet does not find its way back.  A
    data segment is sent on with the allocated port as its source
    port, but its NAT entry is stored under the inner source port; so a
    reply addressed to the upstream IPv4 address and the allocated
    port, coming from the inner destination, misses the table and is
    dropped without a trace, unless the allocated port happens to be
    the inner source port or an older entry has that key. *)
Theorem reply_to_allocated_port_dropped p packet handle indicator
    encappedIndicator contents transportLayer newNetworkLayer newLinkLayer
    reply replyIndicator :
  innerFlow packet = Some (indicator, encappedIndicator, contents) →
  modifyTransportLayer (ind_TransportLayerType encappedIndicator)
    (ind_TransportLayer encappedIndicator)
    (distributePort (advanceAck p indicator contents)
       (flowKey indicator encappedIndicator)).1
  = Asserted transportLayer →
  createNewNetworkLayer p encappedIndicator transportLayer = Ok newNetworkLayer →
  createNewLinkLayer p (decideLinkLayerType p) newNetworkLayer = Ok newLinkLayer →
  parsePacket reply = Ok replyIndicator →
  reverseKey replyIndicator
  = {| q_SrcIP := IP_String (IPv4Addr_IP (UpDev p));
       q_SrcPort := (distributePort (advanceAck p indicator contents)
                       (flowKey indicator encappedIndicator)).1;
       q_DstIP := IP_String (ind_DstIP encappedIndicator);
       q_DstPort := ind_DstPort encappedIndicator;
       q_Protocol := ind_TransportLayerType encappedIndicator |} →
  (distributePort (advanceAck p indicator contents)
     (flowKey indicator encappedIndicator)).1
  ≠ ind_SrcPort encappedIndicator →
  nat p !! reverseKey replyIndicator = None →
  handleUpstream (handleListen p packet handle).1 reply
  = ((handleListen p packet handle).1, []).
Proof.
  intros Hflow Hmod Hnet Hlink Hparse Hkey Hne Hold.
  destruct (handleListen_built p packet handle _ _ _ _ _ _ Hflow Hmod Hnet Hlink)
    as [Hnat _].
  unfold handleUpstream. rewrite Hparse, Hnat, lookup_insert_ne, Hold; [done |].
  rewrite Hkey. unfold natKey. intros [= Hport]. by apply Hne.
Qed.

End Runs.

(** * Properties of Open and Close *)

Section Starting.

Context `{Externals} `{Capture}.

Implicit Types (p : ServerStruct) (st : CaptureState).

Lemma string_app_assoc (a b c : string) : (a +:+ b) +:+ c = a +:+ (b +:+ c).
Proof.
  induction a as [| x a IH]; [done |].
  change (String x ((a +:+ b) +:+ c) = String x (a +:+ (b +:+ c))).
  by rewrite IH.
Qed.

Lemma string_app_nil_r (a : string) : a +:+ "" = a.
Proof.
  induction a as [| x a IH]; [done |].
  change (String x (a +:+ "") = String x a). by rewrite IH.
Qed.

Lemma concat_empty_cons (x : string) (l : list string) :
  String.concat "" (x :: l) = x +:+ String.concat "" l.
Proof. destruct l; simpl; [by rewrite string_app_nil_r | done]. Qed.

Lemma strIPs_from_later (addrs : list IP) (i : Datatypes.nat) (acc : string) :
  i ≠ 0%nat →
  strIPs_from i addrs acc
  = acc +:+ String.concat "" ((fun ip => ", " +:+ IP_String ip) <$> addrs).
Proof.
  revert i acc. induction addrs as [| ip addrs IH]; intros i acc Hi.
  - simpl. by rewrite string_app_nil_r.
  - cbn [strIPs_from]. rewrite decide_False by done. rewrite IH by done.
    by rewrite fmap_cons, concat_empty_cons, string_app_assoc.
Qed.

Lemma concat_comma_cons (x : string) (addrs : list IP) :
  x +:+ String.concat "" ((fun ip => ", " +:+ IP_String ip) <$> addrs)
  = String.concat ", " (x :: (IP_String <$> addrs)).
Proof.
  revert x. induction addrs as [| ip addrs IH]; intros x.
  - simpl. by rewrite string_app_nil_r.
  - rewrite !fmap_cons, concat_empty_cons.
    change (String.concat ", " (x :: IP_String ip :: (IP_String <$> addrs)))
      with (x +:+ (", " +:+ String.concat ", " (IP_String ip :: (IP_String <$> addrs)))).
    by rewrite <- IH, string_app_assoc.
Qed.

(** X11: the address list that Open prints for a device is the string
    forms of its addresses, in order, joined by a comma and a space
    (and empty for a device without addresses). *)
Theorem strIPs_joined (dev : Device) :
  strIPs dev = String.concat ", " (IP_String <$> dev_IPAddrs dev).
Proof.
  unfold strIPs. destruct (dev_IPAddrs dev) as [| ip addrs]; [done |].
  cbn [strIPs_from]. rewrite decide_True by done.
  rewrite strIPs_from_later by done.
  change ("" +:+ IP_String ip) with (IP_String ip).
  by rewrite concat_comma_cons.
Qed.

(** ** The handles *)

Lemma openListenHandles_trace (listenPort : Z) (devs : list Device)
    (handles : list Handle) st :
  ∃ new lost,
    (openListenHandles listenPort devs handles st).1.1.1 = handles ++ new
    ∧ openedHandles (openListenHandles listenPort devs handles st).1.1.2
      = new ++ lost
    ∧ installedFilters (openListenHandles listenPort devs handles st).1.1.2
      = (fun handle => (handle, listenFilter listenPort)) <$> new
    ∧ closedHandles (openListenHandles listenPort devs handles st).1.1.2 = []
    ∧ match (openListenHandles listenPort devs handles st).1.2 with
      | None =>
          lost = [] ∧ length new = length devs
          ∧ openCalls (openListenHandles listenPort devs handles st).1.1.2
            = (fun dev => (dev_Name dev, 1600, true, BlockForever)) <$> devs
      | Some err =>
          (length new < length devs)%nat ∧ (length lost ≤ 1)%nat
          ∧ ∃ e, err = Errorf "open" e
      end.
Proof.
  revert handles st. induction devs as [| dev devs IH]; intros handles st.
  - exists [], []. simpl. by rewrite app_nil_r.
  - cbn [openListenHandles].
    destruct (OpenLive (dev_Name dev) 1600 true BlockForever st)
      as [[handle | err] st1].
    + destruct (SetBPFFilter handle (listenFilter listenPort) st1)
        as [[err |] st2].
      * exists [], [handle]. simpl. rewrite app_nil_r.
        repeat split; eauto; lia.
      * destruct (IH (handles ++ [handle]) st2)
          as (new & lost & Hh & Ho & Hf & Hc & He).
        destruct (openListenHandles listenPort devs (handles ++ [handle]) st2)
          as [[[hs out] e] st3].
        simpl in *. exists (handle :: new), lost.
        rewrite Hh, Ho, Hf, Hc, <- app_assoc. simpl.
        repeat split; try done.
        destruct e as [err |].
        -- destruct He as (Hlt & Hl & e' & ->). repeat split; eauto; lia.
        -- destruct He as (-> & Hl & Hcalls). by rewrite Hl, Hcalls.
    + exists [], []. simpl. rewrite app_nil_r. repeat split; eauto; lia.
Qed.

Lemma printed_omap {B : Type} (g : SetupOutput → option B) (devs : list Device)
    (upDev gatewayDev : Device) (more : list SetupOutput) :
  (∀ text, g (Stdout text) = None) →
  omap g ((listing devs ++ [Stdout (routeLine upDev gatewayDev)]) ++ more)
  = omap g more.
Proof.
  intros Hg.
  assert (Htext : ∀ l : list SetupOutput,
            Forall (fun o => ∃ text, o = Stdout text) l → omap g l = []).
  { intros l Hl. induction Hl as [| o l [text ->] _ IHl]; [done |].
    simpl. by rewrite Hg. }
  rewrite omap_app, Htext; [done |].
  apply Forall_app. split; [| repeat constructor; eauto].
  unfold listing. destruct devs as [| d [| d' devs]].
  - repeat constructor; eauto.
  - repeat constructor; eauto.
  - constructor; [eauto |]. apply Forall_fmap, Forall_true. simpl. eauto.
Qed.

(** X12: Open checks its configuration before it touches the driver.
    Without a listen device, else without an upstream device, else
    without a gateway, it returns the error of that check, in this
    order, having printed nothing and called the driver for nothing;
    the tables have been emptied and the id reset all the same. *)
Theorem Open_setup_refuses p st :
  (s_ListenDevs p = [] →
   Open_setup p st
   = (resetTables p, [], Some (Errorf "open" (errors_New "missing listen device")),
      st))
  ∧ (s_ListenDevs p ≠ [] → s_UpDev p = None →
     Open_setup p st
     = (resetTables p, [],
        Some (Errorf "open" (errors_New "missing upstream device")), st))
  ∧ (s_ListenDevs p ≠ [] → is_Some (s_UpDev p) → s_GatewayDev p = None →
     Open_setup p st
     = (resetTables p, [], Some (Errorf "open" (errors_New "missing gateway")), st)).
Proof.
  unfold Open_setup. simpl. split; [| split].
  - by intros ->.
  - intros Hdevs ->. rewrite bool_decide_eq_false_2; [done |].
    destruct (s_ListenDevs p); [done | simpl; lia].
  - intros Hdevs [upDev ->] ->. rewrite bool_decide_eq_false_2; [done |].
    destruct (s_ListenDevs p); [done | simpl; lia].
Qed.

(** X13: when Open gets through its set-up, it has opened every listen
    device, in their order, and then the upstream device, each with
    snaplen 1600 in promiscuous mode and without timeout; it has
    installed the filter for the listen port on each listen handle and
    the complementary one on the upstream handle; the server holds as
    many listen handles as devices and the upstream handle, its tables
    are empty and its IPv4 id is 0, whatever they held before. *)
Theorem Open_setup_done p st p' out st' :
  Open_setup p st = (p', out, None, st') →
  ∃ upDev gatewayDev up,
    s_UpDev p = Some upDev ∧ s_GatewayDev p = Some gatewayDev
    ∧ length (s_listenHandles p') = length (s_ListenDevs p)
    ∧ openCalls out
      = ((fun dev => (dev_Name dev, 1600, true, BlockForever)) <$> s_ListenDevs p)
        ++ [(dev_Name upDev, 1600, true, BlockForever)]
    ∧ openedHandles out = s_listenHandles p' ++ [up]
    ∧ installedFilters out
      = ((fun handle => (handle, listenFilter (s_ListenPort p)))
           <$> s_listenHandles p')
        ++ [(up, upstreamFilter (s_ListenPort p))]
    ∧ ready p'
      = Some {| ListenPort := s_ListenPort p; ListenDevs := s_ListenDevs p;
                UpDev := upDev; GatewayDev := gatewayDev;
                listenHandles := s_listenHandles p'; upHandle := up;
                seqs := ∅; acks := ∅; id := 0; port := s_port p;
                portDist := ∅; nat := ∅ |}.
Proof.
  unfold Open_setup. simpl.
  case_bool_decide; [done |].
  destruct (s_UpDev p) as [upDev |] eqn:Hup; [| done].
  destruct (s_GatewayDev p) as [gatewayDev |] eqn:Hgw; [| done].
  destruct (openListenHandles_trace (s_ListenPort p) (s_ListenDevs p) [] st)
    as (new & lost & Hh & Ho & Hf & Hc & He).
  destruct (openListenHandles (s_ListenPort p) (s_ListenDevs p) [] st)
    as [[[hs out1] e] st1].
  simpl in *. subst hs.
  destruct e as [err |]; [done |]. destruct He as (-> & Hlen & Hcalls).
  rewrite app_nil_r in Ho.
  destruct (OpenLive (dev_Name upDev) 1600 true BlockForever st1)
    as [[up | err] st2]; [| done].
  destruct (SetBPFFilter up (upstreamFilter (s_ListenPort p)) st2)
    as [[err |] st3]; [done |].
  intros [= <- <- <-]. exists upDev, gatewayDev, up.
  unfold openCalls, openedHandles, installedFilters in *.
  rewrite !printed_omap by done.
  rewrite !omap_app, Hcalls, Ho, Hf. simpl.
  repeat split; try done.
  unfold ready. simpl. by rewrite Hup, Hgw.
Qed.


Lemma run_config (frames : list Frame) (server : Server) :
  config (run server frames).1 = config server.
Proof.
  apply (run_steps (fun a b => config b = config a)).
  - done.
  - intros a b c Hab Hbc. by rewrite Hbc.
  - intros a f. apply handle_frame_config.
Qed.

(** X15: Close undoes what Open did to the driver.  When Open has set
    the server up and handled any frames, Close closes exactly the
    handles that Open opened, each once and in the order they were
    opened: the listen handles in the order of the devices, then the
    upstream handle. *)
Theorem Open_then_Close p st (frames : list Frame) p' out handled st' st2 :
  Open p st frames = (p', out, handled, None, st') →
  (Close p' st2).1 = (fun handle => Call_Close (Some handle)) <$> openedHandles out.
Proof.
  unfold Open.
  destruct (Open_setup p st) as [[[p1 out1] e] st1] eqn:Hsetup.
  destruct e as [err |]; [done |].
  destruct (Open_setup_done _ _ _ _ _ Hsetup)
    as (upDev & gatewayDev & up & _ & _ & _ & _ & Hopened & _ & Hready).
  rewrite Hready.
  match goal with
  | |- context [run ?server frames] =>
      pose proof (run_config frames server) as Hconfig;
      destruct (run server frames) as [server' handled']
  end.
  intros [= <- <- <- <-]. rewrite Hopened.
  unfold config in Hconfig. simpl in Hconfig.
  injection Hconfig as _ _ _ _ Hl Hu.
  unfold Close. simpl. rewrite Hl, Hu. by rewrite fmap_app.
Qed.

End Starting.

(** * The properties of runs and of Open at concrete inputs *)

Section MoreInstances.

Import Scenario Startup.

Local Abbreviation listen := (handleListen (H := Wire.env)).
Local Abbreviation play := (run (H := Wire.env)).

(** X1 on the mixed run: its first output is a write, and it goes to
    the upstream handle. *)
Lemma run_writes_only_upstream_witness :
  ∃ handle written,
    (play server mixed).2 !! 0%nat = Some (WritePacketData handle written)
    ∧ handle = upHandle server.
Proof.
  do 2 eexists.
  match goal with
  | |- ?L ∧ _ => assert (Hfirst : L) by (vm_compute; reflexivity)
  end.
  split; [exact Hfirst |].
  eapply (run_writes_only_upstream (H := Wire.env) mixed server).
  eapply list_elem_of_lookup_2. exact Hfirst.
Defined.

(** X3 on the mixed run from the server that Open left. *)
Lemma run_seqs_stay_zero_witness :
  map_Forall (fun _ seq => seq = 0) (seqs (play server mixed).1).
Proof.
  apply (run_seqs_stay_zero (H := Wire.env) mixed server).
  apply map_Forall_empty.
Defined.

(** X4 after the SYN with seq = 42: the three data segments carry 40,
    3 and 40 bytes, and the ack ends at 43 + 83. *)
Lemma run_acks_total_witness :
  mapget (acks (play afterSyn (drop 1 mixed)).1) client = 126.
Proof.
  rewrite (run_acks_total (H := Wire.env) client (drop 1 mixed) afterSyn).
  - vm_compute. reflexivity.
  - unfold mixed. cbn [drop].
    repeat (apply List.Forall_cons; [vm_compute; reflexivity |]).
    apply List.Forall_nil.
  - assert (Ha : mapget (acks afterSyn) client = 43) by (vm_compute; reflexivity).
    rewrite Ha. lia.
Defined.

(** X5 on the mixed run: two segments reach "Distribute port". *)
Lemma run_port_counts_segments_witness :
  port (play server mixed).1 = 2 ∧ distributions (H := Wire.env) mixed = 2.
Proof.
  destruct (run_port_counts_segments (H := Wire.env) mixed server) as [Hport _].
  - reflexivity.
  - change (port server) with 0. lia.
  - split; [rewrite Hport |]; vm_compute; reflexivity.
Defined.

(** X6 on the three flows: the same key gets different ports before
    and after the first data segment. *)
Lemma distributePort_same_port_iff_witness :
  (distributePort (play server (listenFrames (take 0 threeFlows))).1 recordedKey).1
  ≠ (distributePort (play server (listenFrames (take 1 threeFlows))).1
       recordedKey).1.
Proof.
  intros Heq.
  apply (distributePort_same_port_iff (H := Wire.env) threeFlows server 0 1) in Heq.
  - discriminate Heq.
  - reflexivity.
  - reflexivity.
  - unfold threeFlows.
    repeat (apply List.Forall_cons; [eexists; vm_compute; reflexivity |]).
    apply List.Forall_nil.
  - simpl. lia.
  - simpl. lia.
Defined.

(** X8 at the data segment of scenario 2, on a driver that refuses the
    write. *)
Lemma handleListen_write_error_witness :
  ∃ written,
    (handleListen (H := refusing) afterSyn (data 43 (innerUDP 64 55555))
       listenHandle).2
    = [WritePacketData upstreamHandle written;
       Println (Errorf "handle listen" (Errorf "write" (ExternalError 5)));
       Printf_RedirectInbound LayerTypeUDP "10.0.0.2:55555" "8.8.8.8:53" 94]
    ∧ is_Some (nat (handleListen (H := refusing) afterSyn
                      (data 43 (innerUDP 64 55555)) listenHandle).1
               !! recordedKey)
    ∧ acks (handleListen (H := refusing) afterSyn (data 43 (innerUDP 64 55555))
              listenHandle).1 !! client
      = Some 83.
Proof.
  edestruct (handleListen_write_error (H := refusing) afterSyn
               (data 43 (innerUDP 64 55555)) listenHandle)
    as (Hout & Hnat & Hack).
  { vm_compute. reflexivity. }
  { vm_compute. reflexivity. }
  { vm_compute. reflexivity. }
  { vm_compute. reflexivity. }
  { vm_compute. reflexivity. }
  { vm_compute. reflexivity. }
  eexists. split; [| split].
  - rewrite Hout. vm_compute. reflexivity.
  - rewrite Hnat. vm_compute. eexists. reflexivity.
  - rewrite Hack. vm_compute. reflexivity.
Defined.

(** X9 at the reply to the inner port 55555 after scenario 2. *)
Lemma handleUpstream_hit_ends_in_error_witness :
  ∃ o, last (handleUpstream (H := Wire.env) afterData (reply 55555)).2 = Some o
       ∧ (o = Panic ∨ ∃ e, o = Println (Errorf "handle upstream" e)).
Proof.
  eapply (handleUpstream_hit_ends_in_error (H := Wire.env)).
  - vm_compute. reflexivity.
  - vm_compute. eexists. reflexivity.
Defined.

(** X10 at scenario 2 and the reply of scenario 3. *)
Lemma reply_to_allocated_port_dropped_witness :
  handleUpstream (H := Wire.env)
    (listen afterSyn (data 43 (innerUDP 64 55555)) listenHandle).1 (reply 49152)
  = ((listen afterSyn (data 43 (innerUDP 64 55555)) listenHandle).1, []).
Proof.
  eapply (reply_to_allocated_port_dropped (H := Wire.env)).
  - vm_compute. reflexivity.
  - vm_compute. reflexivity.
  - vm_compute. reflexivity.
  - vm_compute. reflexivity.
  - vm_compute. reflexivity.
  - vm_compute. reflexivity.
  - intros Heq. vm_compute in Heq. discriminate Heq.
  - vm_compute. reflexivity.
Defined.

(** X12 without any device. *)
Lemma Open_setup_refuses_witness :
  Open_setup (H := Wire.env) (H0 := Driver.capture) without_listen
    (Driver.fresh [] [])
  = (resetTables without_listen, [],
     Some (Errorf "open" (errors_New "missing listen device")), Driver.fresh [] []).
Proof.
  by apply (Open_setup_refuses (H := Wire.env) (H0 := Driver.capture)).
Defined.

(** X13 with the two listen devices and a driver that opens them all:
    handles 0 and 1 listen, handle 2 is the upstream one. *)
Lemma Open_setup_done_witness :
  ∃ p' out st',
    Open_setup (H := Wire.env) (H0 := Driver.capture) settings (Driver.fresh [] [])
    = (p', out, None, st')
    ∧ openCalls out
      = [("eth0", 1600, true, BlockForever); ("lo", 1600, true, BlockForever);
         ("eth1", 1600, true, BlockForever)]
    ∧ installedFilters out
      = [(0%nat, "tcp && dst port 8080"); (1%nat, "tcp && dst port 8080");
         (2%nat, "(tcp || udp) && not dst port 8080")]
    ∧ (seqs <$> ready p') = Some ∅
    ∧ Driver.opened st' = [0%nat; 1%nat; 2%nat].
Proof.
  do 3 eexists.
  match goal with
  | |- ?L ∧ _ => assert (Hsetup : L) by (vm_compute; reflexivity)
  end.
  split; [exact Hsetup |].
  destruct (Open_setup_done (H := Wire.env) (H0 := Driver.capture) _ _ _ _ _ Hsetup)
    as (upDev & gatewayDev & up & _ & Hgw & _ & Hcalls & _ & Hfilters & Hready).
  split; [| split; [| split]].
  - vm_compute. reflexivity.
  - vm_compute. reflexivity.
  - rewrite Hready. reflexivity.
  - reflexivity.
Defined.


(** X15 on the mixed run: Open returns no error, and Close then closes
    handles 0, 1 and 2. *)
Lemma Open_then_Close_witness :
  (Open (H := Wire.env) (H0 := Driver.capture) settings (Driver.fresh [] []) mixed).1.2
  = None
  ∧ (Close (H0 := Driver.capture)
       (Open (H := Wire.env) (H0 := Driver.capture) settings (Driver.fresh [] [])
          mixed).1.1.1.1
       (Driver.fresh [] [])).1
    = [Call_Close (Some 0%nat); Call_Close (Some 1%nat); Call_Close (Some 2%nat)].
Proof.
  assert (Herr : (Open (H := Wire.env) (H0 := Driver.capture) settings
                    (Driver.fresh [] []) mixed).1.2 = None)
    by (vm_compute; reflexivity).
  assert (Hout : openedHandles
                   (Open (H := Wire.env) (H0 := Driver.capture) settings
                      (Driver.fresh [] []) mixed).1.1.1.2
                 = [0%nat; 1%nat; 2%nat])
    by (vm_compute; reflexivity).
  split; [exact Herr |].
  revert Herr Hout.
  destruct (Open (H := Wire.env) (H0 := Driver.capture) settings
              (Driver.fresh [] []) mixed)
    as [[[[p' out] handled] e] st'] eqn:Hopen.
  cbn [fst snd]. intros -> Hout.
  rewrite (Open_then_Close (H := Wire.env) (H0 := Driver.capture)
             _ _ _ _ _ _ _ (Driver.fresh [] []) Hopen).
  rewrite Hout. reflexivity.
Defined.

End MoreInstances.
